(** * The POI list-provider pipeline and the node request client

    A shallow embedding of

    - [packages/node/src/api/poi-node-request.ts], class [POINodeRequest]
      ([postRequest], [removeTransactProof],
      [submitValidatedTxidAndMerkleroot]), and
    - the abstract class [ListProvider] that follows it in the same file
      (the two self-rescheduling pollers, [queueNewShields],
      [queueShieldSafe], [validateNextQueuedShieldBatch], [validateShield]).

    Asynchronous TypeScript is embedded in a state-and-exception monad over
    a [World]: the durable stores, the in-memory event buffer and a trace of
    every call that leaves the process (datastore, chain RPC, policy gate,
    signer, HTTP, debug log, timer).  An [await] is a monadic bind; an
    exception keeps the side effects that happened before it was thrown.
    [Promise.all (xs.map f)] starts the tasks in list order and is embedded
    as running them one after the other.

    Collaborators whose code is not part of the sources at hand (the
    datastore classes, the event queue, the blocklist writer, the signer, the
    chain observer) are either interfaces (type classes below) or modelled
    from the specification, and marked as such. *)

From Stdlib Require Import ZArith String Ascii DecimalString.
From stdpp Require Import gmap strings list sorting.
From Stdlib Require DecimalZ DecimalPos.

Local Open Scope Z_scope.

(** ** Strings and numbers as JavaScript prints them *)

(** A template literal [`${n}`] on an integral number. *)
Definition showZ (z : Z) : string := NilZero.string_of_int (Z.to_int z).

(** [String.prototype.toLowerCase] on the ASCII range.  Addresses and
    transaction ids are ASCII hexadecimal strings; characters outside
    ['A'..'Z'] are left as they are. *)
Definition isUpperCase (c : ascii) : bool :=
  (65 <=? nat_of_ascii c)%nat && (nat_of_ascii c <=? 90)%nat.

Definition toLowerCaseChar (c : ascii) : ascii :=
  if isUpperCase c then ascii_of_nat (nat_of_ascii c + 32) else c.

Fixpoint toLowerCase (s : string) : string :=
  match s with
  | EmptyString => EmptyString
  | String c s' => String (toLowerCaseChar c) (toLowerCase s')
  end.

Fixpoint hasUpperCase (s : string) : bool :=
  match s with
  | EmptyString => false
  | String c s' => isUpperCase c || hasUpperCase s'
  end.

(** ** Data model *)

(** [NetworkName] and [TXIDVersion] are string enums of the shared-models
    package. *)
Abbreviation NetworkName := string (only parsing).
Abbreviation TXIDVersion := string (only parsing).

(** [ShieldStatus] of models/database-types. *)
Inductive ShieldStatus : Type := Pending | Allowed | Blocked.

#[global] Instance ShieldStatus_eq_dec : EqDecision ShieldStatus.
Proof. solve_decision. Defined.

(** What the chain observer reports for one shield. *)
Module ShieldData.
Record t : Type := mk {
  txid : string;
  hash : string;
  blindedCommitment : string;
  timestamp : Z;
  blockNumber : Z
}.
End ShieldData.

(** One row of the shield queue.  [validateShield] reads [txid],
    [commitmentHash] and [blindedCommitment]. *)
Module ShieldQueueDBItem.
Record t : Type := mk {
  txid : string;
  commitmentHash : string;
  blindedCommitment : string;
  timestamp : Z;
  status : ShieldStatus;
  lastValidatedTimestamp : option Z
}.

Definition setStatus (st : ShieldStatus) (r : t) : t :=
  mk (txid r) (commitmentHash r) (blindedCommitment r) (timestamp r) st
     (lastValidatedTimestamp r).

(** The unique index of the collection: (txid, hash). *)
Definition key (r : t) : string * string := (txid r, commitmentHash r).
End ShieldQueueDBItem.

Abbreviation ShieldQueueRow := ShieldQueueDBItem.t.

(** [NetworkStatus]: the per-network cursor of the status store. *)
Record NetworkStatus : Type := { latestBlockScanned : Z }.

(** models/poi-types.ts *)
Inductive POIEventType : Type := Shield | Transact | LegacyTransact.

Module POIEventShield.
Record t : Type := mk {
  type : POIEventType;
  blindedCommitment : string;
  commitmentHash : string
}.
End POIEventShield.

Module SignedBlockedShield.
Record t : Type := mk {
  commitmentHash : string;
  blindedCommitment : string;
  blockReason : option string;
  signature : string
}.
End SignedBlockedShield.

(** The part of an ethers transaction receipt the code reads. *)
Module TransactionReceipt.
Record t : Type := mk {
  from : string;
  blockNumber : Z
}.
End TransactionReceipt.

(** A [Chain] of shared-models, the [chain] entry of a [NETWORK_CONFIG]
    row, and the part of a network of config/general that the code reads. *)
Module Chain.
Record t : Type := mk { type : Z; id : Z }.
End Chain.

Record NetworkConfig : Type := { chain : Chain.t }.

Record Network : Type := { deploymentBlock : Z }.

(** The answer of the policy gate, [{ shouldAllow, blockReason? }]. *)
Record Verdict : Type := {
  shouldAllow : bool;
  blockReason : option string
}.

(** [ListProviderConfig] *)
Record ListProviderConfig : Type := {
  name : string;
  description : string;
  queueShieldsOverrideDelayMsec : option Z;
  validateShieldsOverrideDelayMsec : option Z
}.

(** Bodies of the two POST requests embedded here. *)
Inductive RequestBody : Type :=
  | RemoveTransactProofBody
      (txidVersion : TXIDVersion) (listKey : string)
      (blindedCommitmentsOut : list string)
      (railgunTxidIfHasUnshield : string) (signature : string)
  | SubmitValidatedTxidBody
      (txidVersion : TXIDVersion) (txidIndex : Z) (merkleroot : string)
      (signature : string) (listKey : string).

(** ** Exceptions *)

Inductive JsError : Type :=
  | Error (message : string)
  | AxiosError (message : string) (responseData : option string).

Definition message (e : JsError) : string :=
  match e with
  | Error m => m
  | AxiosError m _ => m
  end.

Inductive Result (A : Type) : Type :=
  | Ok (a : A)
  | Throw (e : JsError).
Arguments Ok {A} a.
Arguments Throw {A} e.

(** ** Calls that leave the process *)

Inductive Call : Type :=
  (* StatusDatabase *)
  | GetStatus (networkName : NetworkName)
  | SaveStatus (networkName : NetworkName) (latestBlockScanned : Z)
  (* ShieldQueueDatabase *)
  | InsertPendingShield (networkName : NetworkName) (shieldData : ShieldData.t)
  | GetPendingShields (networkName : NetworkName) (endTimestamp : Z) (limit : nat)
  | UpdateShieldStatus (networkName : NetworkName) (shieldDBItem : ShieldQueueRow)
      (status : ShieldStatus)
  (* engine/wallet and rpc-providers/tx-receipt *)
  | GetNewShieldsFromWallet (networkName : NetworkName) (startingBlock : Z)
  | GetTransactionReceipt (networkName : NetworkName) (txid : string)
  | GetTimestampFromTransactionReceipt (networkName : NetworkName)
      (txReceipt : TransactionReceipt.t)
  (* the policy gate *)
  | ShouldAllowShield (networkName : NetworkName) (txid : string)
      (fromAddressLowercase : string) (timestamp : Z)
  (* ListProviderPOIEventQueue and ListProviderBlocklist *)
  | QueueUnsignedPOIShieldEvent (networkName : NetworkName)
      (poiEventShield : POIEventShield.t)
  | AddBlockedShield (networkName : NetworkName) (shieldDBItem : ShieldQueueRow)
      (blockReason : option string)
  (* util/ed25519 *)
  | GetListPublicKey
  | SignBlockedShield (commitmentHash blindedCommitment : string)
      (blockReason : option string)
  | SignRemoveProof (blindedCommitmentsOut : list string)
      (railgunTxidIfHasUnshield : string)
  | SignValidatedTxidMerkleroot (txidIndex : Z) (merkleroot : string)
  (* axios *)
  | AxiosPost (url : string) (params : RequestBody)
  (* debug and timers *)
  | Dbg (line : string)
  | DbgShieldData (shieldData : ShieldData.t)
  | DbgShieldDBItem (shieldDBItem : ShieldQueueRow)
  | Delay (msec : Z).

(** ** The world *)

Record World : Type := mkWorld {
  shieldQueue : gmap string (list ShieldQueueRow);
  statusStore : gmap string NetworkStatus;
  poiEventQueue : list (NetworkName * POIEventShield.t);
  blockedShields : list (NetworkName * SignedBlockedShield.t);
  trace : list Call
}.

Definition setShieldQueue (q : gmap string (list ShieldQueueRow)) (w : World) :=
  mkWorld q (statusStore w) (poiEventQueue w) (blockedShields w) (trace w).
Definition setStatusStore (s : gmap string NetworkStatus) (w : World) :=
  mkWorld (shieldQueue w) s (poiEventQueue w) (blockedShields w) (trace w).
Definition setPoiEventQueue (q : list (NetworkName * POIEventShield.t)) (w : World) :=
  mkWorld (shieldQueue w) (statusStore w) q (blockedShields w) (trace w).
Definition setBlockedShields (b : list (NetworkName * SignedBlockedShield.t)) (w : World) :=
  mkWorld (shieldQueue w) (statusStore w) (poiEventQueue w) b (trace w).
Definition setTrace (t : list Call) (w : World) :=
  mkWorld (shieldQueue w) (statusStore w) (poiEventQueue w) (blockedShields w) t.

(** The rows of one network's shield queue collection. *)
Definition rowsOf (networkName : NetworkName) (w : World) : list ShieldQueueRow :=
  default [] (shieldQueue w !! networkName).

(** ** The monad of asynchronous code *)

Definition M (A : Type) : Type := World -> Result A * World.

Definition ret {A} (a : A) : M A := fun w => (Ok a, w).

Definition bind {A B} (m : M A) (k : A -> M B) : M B :=
  fun w =>
    match m w with
    | (Ok a, w') => k a w'
    | (Throw e, w') => (Throw e, w')
    end.

Definition throw {A} (e : JsError) : M A := fun w => (Throw e, w).

(** [try { body } catch (err) { handler err }] *)
Definition tryCatch {A} (body : M A) (handler : JsError -> M A) : M A :=
  fun w =>
    match body w with
    | (Ok a, w') => (Ok a, w')
    | (Throw e, w') => handler e w'
    end.

Definition getWorld : M World := fun w => (Ok w, w).
Definition modifyWorld (f : World -> World) : M unit := fun w => (Ok tt, f w).

(** Lifting the answer of a collaborator. *)
Definition liftResult {A} (r : Result A) : M A := fun w => (r, w).

Declare Scope js_scope.
Delimit Scope js_scope with js.
Notation "x <- c1 ;; c2" := (bind c1 (fun x => c2))
  (at level 100, c1 at next level, right associativity) : js_scope.
Notation "c1 ;; c2" := (bind c1 (fun _ => c2))
  (at level 100, right associativity) : js_scope.
Local Open Scope js_scope.

(** Every call is recorded at the moment it is made. *)
Definition emit (c : Call) : M unit :=
  modifyWorld (fun w => setTrace (trace w ++ [c]) w).

(** [await Promise.all(tasks)]: every task runs; the first rejection, if
    any, is what the caller sees. *)
Fixpoint promiseAll (tasks : list (M unit)) : M unit :=
  match tasks with
  | [] => ret tt
  | task :: rest =>
      fun w =>
        match task w with
        | (Ok _, w') => promiseAll rest w'
        | (Throw e, w') => (Throw e, snd (promiseAll rest w'))
        end
  end.

(** ** Interfaces of the collaborators *)

(** config/config, config/constants, config/general, the [NETWORK_CONFIG]
    table of shared-models, and the clock read by [Date.now ()]. *)
Class Environment : Type := {
  NETWORK_NAMES : list NetworkName;
  HOURS_SHIELD_PENDING_PERIOD : Z;
  networkForName : NetworkName -> Network;
  NETWORK_CONFIG : NetworkName -> NetworkConfig;
  isListProvider : bool;
  dateNow : Z
}.

(** What the chain answers: engine/wallet and rpc-providers/tx-receipt. *)
Class ChainObserver : Type := {
  newShieldsFromWallet : NetworkName -> Z -> Result (list ShieldData.t);
  transactionReceipt : NetworkName -> string -> Result TransactionReceipt.t;
  timestampFromTransactionReceipt :
    NetworkName -> TransactionReceipt.t -> Result Z
}.

(** util/ed25519: the key holder. *)
Class Signer : Type := {
  listPublicKey : Result string;
  blockedShieldSignature : string -> string -> option string -> Result string;
  removeProofSignature : list string -> string -> Result string;
  validatedTxidMerklerootSignature : Z -> string -> Result string
}.

(** What the remote node answers to a POST. *)
Class RemoteNode : Type := {
  postResponse : string -> RequestBody -> Result string
}.

(** Failures of the stores and in-process services that the model does not
    explain (datastore unavailable and the like): a call listed here throws
    before it has any effect. *)
Class Faults : Type := {
  fault : Call -> option JsError
}.

(** The abstract class [ListProvider]: its abstract members. *)
Class ListProvider : Type := {
  listKey : string;
  config : ListProviderConfig;
  policy : NetworkName -> string -> string -> Z -> Result Verdict
}.

Section Pipeline.

Context {environment : Environment} {observer : ChainObserver}
        {signer : Signer} {remoteNode : RemoteNode} {faults : Faults}
        {provider : ListProvider}.

(** ** Collaborators *)

Definition dbg (line : string) : M unit := emit (Dbg line).

Definition delay (msec : Z) : M unit := emit (Delay msec).

(** A call into a store or service: recorded, then subject to [fault]. *)
Definition service (c : Call) : M unit :=
  emit c ;;
  match fault c with
  | Some e => throw e
  | None => ret tt
  end.

(** A call answered by the outside world: recorded, then answered. *)
Definition ask {A} (c : Call) (answer : Result A) : M A :=
  emit c ;; liftResult answer.

Definition getNewShieldsFromWallet (networkName : NetworkName) (startingBlock : Z)
  : M (list ShieldData.t) :=
  ask (GetNewShieldsFromWallet networkName startingBlock)
      (newShieldsFromWallet networkName startingBlock).

Definition getTransactionReceipt (networkName : NetworkName) (txid : string)
  : M TransactionReceipt.t :=
  ask (GetTransactionReceipt networkName txid)
      (transactionReceipt networkName txid).

Definition getTimestampFromTransactionReceipt (networkName : NetworkName)
  (txReceipt : TransactionReceipt.t) : M Z :=
  ask (GetTimestampFromTransactionReceipt networkName txReceipt)
      (timestampFromTransactionReceipt networkName txReceipt).

Definition shouldAllowShield (networkName : NetworkName) (txid : string)
  (fromAddressLowercase : string) (timestamp : Z) : M Verdict :=
  ask (ShouldAllowShield networkName txid fromAddressLowercase timestamp)
      (policy networkName txid fromAddressLowercase timestamp).

Definition getListPublicKey : M string := ask GetListPublicKey listPublicKey.

Definition signBlockedShield (commitmentHash blindedCommitment : string)
  (reason : option string) : M string :=
  ask (SignBlockedShield commitmentHash blindedCommitment reason)
      (blockedShieldSignature commitmentHash blindedCommitment reason).

Definition signRemoveProof (blindedCommitmentsOut : list string)
  (railgunTxidIfHasUnshield : string) : M string :=
  ask (SignRemoveProof blindedCommitmentsOut railgunTxidIfHasUnshield)
      (removeProofSignature blindedCommitmentsOut railgunTxidIfHasUnshield).

Definition signValidatedTxidMerkleroot (txidIndex : Z) (merkleroot : string)
  : M string :=
  ask (SignValidatedTxidMerkleroot txidIndex merkleroot)
      (validatedTxidMerklerootSignature txidIndex merkleroot).

Definition axiosPost (url : string) (params : RequestBody) : M string :=
  ask (AxiosPost url params) (postResponse url params).

(** Modelled from the spec: [hoursAgo] of util/time-ago is missing; the
    validation cutoff is "now - pendingPeriodHours", in milliseconds.
    [dateNow] is what the clock shows where a validation pass reads it, once,
    for its cutoff.  The pollers are run with one reading for all their
    passes: what is stated of a whole run of a poller does not mention the
    cutoff; what is stated of the cutoff is stated of one pass. *)
Definition hoursAgo (hours : Z) : Z := dateNow - hours * 60 * 60 * 1000.

(** *** Status store *)

(** Modelled from the spec: [StatusDatabase.getStatus] is missing; the store
    is a single row per network holding [latestBlockScanned]. *)
Definition getStatus (networkName : NetworkName) : M (option NetworkStatus) :=
  service (GetStatus networkName) ;;
  w <- getWorld ;;
  ret (statusStore w !! networkName).

(** Modelled from the spec: [StatusDatabase.saveStatus] is missing;
    "saveStatus(block) must reject values less than the current value". *)
Definition saveStatus (networkName : NetworkName) (block : Z) : M unit :=
  service (SaveStatus networkName block) ;;
  w <- getWorld ;;
  let write :=
    modifyWorld
      (setStatusStore
         (<[networkName := {| latestBlockScanned := block |}]> (statusStore w))) in
  match statusStore w !! networkName with
  | Some current =>
      if block <? latestBlockScanned current
      then throw (Error "latestBlockScanned must not decrease")
      else write
  | None => write
  end.

(** *** Shield queue store *)

Definition hasKey (k : string * string) (r : ShieldQueueRow) : bool :=
  bool_decide (ShieldQueueDBItem.key r = k).

Definition pendingRow (shieldData : ShieldData.t) : ShieldQueueRow :=
  ShieldQueueDBItem.mk
    (ShieldData.txid shieldData) (ShieldData.hash shieldData)
    (ShieldData.blindedCommitment shieldData) (ShieldData.timestamp shieldData)
    Pending None.

(** Modelled from the spec: [ShieldQueueDatabase.insertPendingShield] is
    missing; "upsert with status=Pending, lastValidatedTimestamp=null",
    "insertion of a duplicate is a no-op", "must not overwrite a row already
    in a terminal state". *)
Definition insertPendingShield (networkName : NetworkName)
  (shieldData : ShieldData.t) : M unit :=
  service (InsertPendingShield networkName shieldData) ;;
  w <- getWorld ;;
  let rows := rowsOf networkName w in
  if existsb (hasKey (ShieldData.txid shieldData, ShieldData.hash shieldData)) rows
  then ret tt
  else modifyWorld
         (setShieldQueue
            (<[networkName := rows ++ [pendingRow shieldData]]> (shieldQueue w))).

(** The eligibility test and the order of [getPendingShields]. *)
Definition isEligible (endTimestamp : Z) (r : ShieldQueueRow) : Prop :=
  ShieldQueueDBItem.status r = Pending /\
  ShieldQueueDBItem.timestamp r <= endTimestamp.

#[global] Instance isEligible_dec endTimestamp r : Decision (isEligible endTimestamp r).
Proof. unfold isEligible. apply _. Defined.

Definition byTimestamp (r1 r2 : ShieldQueueRow) : Prop :=
  ShieldQueueDBItem.timestamp r1 <= ShieldQueueDBItem.timestamp r2.

#[global] Instance byTimestamp_dec r1 r2 : Decision (byTimestamp r1 r2).
Proof. unfold byTimestamp. apply _. Defined.

(** Modelled from the spec: [ShieldQueueDatabase.getPendingShields] is
    missing; "return up to limit rows where status=Pending and
    timestamp <= endTimestamp, ordered by timestamp ascending". *)
Definition pendingShieldsOf (endTimestamp : Z) (limit : nat)
  (rows : list ShieldQueueRow) : list ShieldQueueRow :=
  take limit (merge_sort byTimestamp (filter (isEligible endTimestamp) rows)).

Definition getPendingShields (networkName : NetworkName) (endTimestamp : Z)
  (limit : nat) : M (list ShieldQueueRow) :=
  service (GetPendingShields networkName endTimestamp limit) ;;
  w <- getWorld ;;
  ret (pendingShieldsOf endTimestamp limit (rowsOf networkName w)).

(** A collection after the status of the row with index [k] was set. *)
Definition withStatus (k : string * string) (st : ShieldStatus)
  (rows : list ShieldQueueRow) : list ShieldQueueRow :=
  map (fun r => if hasKey k r then ShieldQueueDBItem.setStatus st r else r) rows.

(** Modelled from the spec: [ShieldQueueDatabase.updateShieldStatus] is
    missing; "transition Pending -> {Allowed, Blocked}.  Idempotent at the
    target status; an attempt to regress is a fatal error".  The row is
    found by its unique index; a row that is not in the collection is left
    alone. *)
Definition updateShieldStatus (networkName : NetworkName)
  (shieldDBItem : ShieldQueueRow) (newStatus : ShieldStatus) : M unit :=
  service (UpdateShieldStatus networkName shieldDBItem newStatus) ;;
  w <- getWorld ;;
  let rows := rowsOf networkName w in
  let k := ShieldQueueDBItem.key shieldDBItem in
  match find (hasKey k) rows with
  | None => ret tt
  | Some stored =>
      if bool_decide (ShieldQueueDBItem.status stored = newStatus) then ret tt
      else if bool_decide (ShieldQueueDBItem.status stored = Pending) then
        modifyWorld
          (setShieldQueue
             (<[networkName := withStatus k newStatus rows]> (shieldQueue w)))
      else throw (Error "shield status must not regress")
  end.

(** *** Event queue and blocklist *)

(** Modelled from the spec: [ListProviderPOIEventQueue] is missing;
    [queueUnsignedPOIShieldEvent] is "accept, buffer, later sign". *)
Definition queueUnsignedPOIShieldEvent (networkName : NetworkName)
  (poiEventShield : POIEventShield.t) : M unit :=
  service (QueueUnsignedPOIShieldEvent networkName poiEventShield) ;;
  modifyWorld
    (fun w => setPoiEventQueue (poiEventQueue w ++ [(networkName, poiEventShield)]) w).

(** Modelled from the spec: [ListProviderBlocklist.addBlockedShield] is
    missing; "append a signed SignedBlockedShield { commitmentHash,
    blindedCommitment, blockReason } to C4 via C5". *)
Definition addBlockedShield (networkName : NetworkName)
  (shieldDBItem : ShieldQueueRow) (reason : option string) : M unit :=
  service (AddBlockedShield networkName shieldDBItem reason) ;;
  signature <- signBlockedShield
                 (ShieldQueueDBItem.commitmentHash shieldDBItem)
                 (ShieldQueueDBItem.blindedCommitment shieldDBItem) reason ;;
  modifyWorld
    (fun w =>
       setBlockedShields
         (blockedShields w ++
          [(networkName,
            SignedBlockedShield.mk
              (ShieldQueueDBItem.commitmentHash shieldDBItem)
              (ShieldQueueDBItem.blindedCommitment shieldDBItem)
              reason signature)]) w).

(** ** class POINodeRequest *)

Definition getNodeRouteURL (url route : string) : string :=
  (url ++ "/" ++ route)%string.

(** [`${err.response?.data}`] *)
Definition showResponseData (data : option string) : string :=
  default "undefined"%string data.

Definition postRequest (url : string) (params : RequestBody) : M string :=
  tryCatch
    (data <- axiosPost url params ;;
     ret data)
    (fun err =>
       match err with
       | AxiosError msg data =>
           let errMessage := (msg ++ ": " ++ showResponseData data)%string in
           dbg ("ERROR " ++ url ++ " - " ++ errMessage)%string ;;
           throw (Error errMessage)
       | _ => throw err
       end).

Definition removeTransactProof (nodeURL : string) (networkName : NetworkName)
  (txidVersion : TXIDVersion) (listKey : string)
  (blindedCommitmentsOut : list string) (railgunTxidIfHasUnshield : string)
  : M unit :=
  let chain := chain (NETWORK_CONFIG networkName) in
  let route :=
    ("remove-transact-proof/" ++ showZ (Chain.type chain) ++ "/"
     ++ showZ (Chain.id chain))%string in
  let url := getNodeRouteURL nodeURL route in
  if negb isListProvider then
    (* Cannot sign without list. *)
    ret tt
  else
    signature <- signRemoveProof blindedCommitmentsOut railgunTxidIfHasUnshield ;;
    postRequest url
      (RemoveTransactProofBody txidVersion listKey blindedCommitmentsOut
         railgunTxidIfHasUnshield signature) ;;
    ret tt.

Definition submitValidatedTxidAndMerkleroot (nodeURL : string)
  (networkName : NetworkName) (txidVersion : TXIDVersion) (txidIndex : Z)
  (merkleroot : string) : M unit :=
  let chain := chain (NETWORK_CONFIG networkName) in
  let route :=
    ("submit-validated-txid/" ++ showZ (Chain.type chain) ++ "/"
     ++ showZ (Chain.id chain))%string in
  let url := getNodeRouteURL nodeURL route in
  listKey <- getListPublicKey ;;
  if negb isListProvider then
    (* Cannot sign without list. *)
    ret tt
  else
    signature <- signValidatedTxidMerkleroot txidIndex merkleroot ;;
    postRequest url
      (SubmitValidatedTxidBody txidVersion txidIndex merkleroot signature listKey) ;;
    ret tt.

(** ** class ListProvider *)

(** 20 minutes *)
Definition DEFAULT_QUEUE_SHIELDS_DELAY_MSEC : Z := 20 * 60 * 1000.

(** 30 seconds *)
Definition DEFAULT_VALIDATE_SHIELDS_DELAY_MSEC : Z := 30 * 1000.

(** [for (...) { await f (xs[i]) }] *)
Fixpoint forEachInSeries {A} (f : A -> M unit) (xs : list A) : M unit :=
  match xs with
  | [] => ret tt
  | x :: rest => f x ;; forEachInSeries f rest
  end.

Definition queueShieldSafe (networkName : NetworkName)
  (shieldData : ShieldData.t) : M unit :=
  tryCatch
    (insertPendingShield networkName shieldData)
    (fun err =>
       dbg ("[" ++ networkName ++ "] Error queuing shield on " ++ networkName
            ++ ": " ++ message err)%string ;;
       emit (DbgShieldData shieldData)).

Definition queueNewShields (networkName : NetworkName) : M unit :=
  status <- getStatus networkName ;;
  let network := networkForName networkName in
  let startingBlock :=
    default (deploymentBlock network) (latestBlockScanned <$> status) in
  newShields <- getNewShieldsFromWallet networkName startingBlock ;;
  dbg ("[" ++ networkName ++ "] Attempting to insert "
       ++ showZ (Z.of_nat (length newShields)) ++ " pending shields")%string ;;
  promiseAll (map (fun shieldData => queueShieldSafe networkName shieldData)
                  newShields) ;;
  if (0 <? length newShields)%nat then
    match newShields !! (length newShields - 1)%nat with
    | Some lastShieldScanned =>
        let latestBlockScanned := ShieldData.blockNumber lastShieldScanned in
        saveStatus networkName latestBlockScanned
    | None => throw (Error "Cannot read properties of undefined")
    end
  else ret tt.

Definition getMaxTimestampForValidation : Z :=
  hoursAgo HOURS_SHIELD_PENDING_PERIOD.

Definition validateShield (networkName : NetworkName)
  (shieldDBItem : ShieldQueueRow) (endTimestamp : Z) : M unit :=
  let txid := ShieldQueueDBItem.txid shieldDBItem in
  tryCatch
    (txReceipt <- getTransactionReceipt networkName txid ;;
     timestamp <- getTimestampFromTransactionReceipt networkName txReceipt ;;
     (if endTimestamp <? timestamp then
        (* Shield is too new to validate *)
        throw (Error "Invalid timestamp")
      else ret tt) ;;
     verdict <- shouldAllowShield networkName txid
                  (toLowerCase (TransactionReceipt.from txReceipt)) timestamp ;;
     (if shouldAllow verdict then
        (* Allow - add POIEvent *)
        let poiEventShield :=
          POIEventShield.mk Shield
            (ShieldQueueDBItem.blindedCommitment shieldDBItem)
            (ShieldQueueDBItem.commitmentHash shieldDBItem) in
        queueUnsignedPOIShieldEvent networkName poiEventShield
      else
        (* Block - add BlockedShield *)
        addBlockedShield networkName shieldDBItem (blockReason verdict)) ;;
     (* Update status in DB *)
     updateShieldStatus networkName shieldDBItem
       (if shouldAllow verdict then Allowed else Blocked))
    (fun err =>
       dbg ("Error validating queued shield on " ++ networkName ++ ": "
            ++ message err)%string ;;
       emit (DbgShieldDBItem shieldDBItem)).

Definition validateNextQueuedShieldBatch (networkName : NetworkName) : M unit :=
  let endTimestamp := getMaxTimestampForValidation in
  fetched <-
    tryCatch
      (let limit := 100%nat in
       pendingShields <- getPendingShields networkName endTimestamp limit ;;
       if bool_decide (length pendingShields = 0%nat) then ret None
       else ret (Some pendingShields))
      (fun err =>
         dbg ("Error getting queued shields on " ++ networkName ++ ": "
              ++ message err)%string ;;
         ret None) ;;
  match fetched with
  | None => ret tt
  | Some pendingShields =>
      dbg ("[" ++ networkName ++ "] Validating "
           ++ showZ (Z.of_nat (length pendingShields))
           ++ " pending shields...")%string ;;
      promiseAll
        (map (fun shieldData => validateShield networkName shieldData endTimestamp)
             pendingShields)
  end.

(** The pollers call themselves again after the delay.  [fuel] bounds the
    number of iterations that are observed; an iteration that throws ends
    the chain of calls, as an unhandled rejection does. *)
Fixpoint runQueueShieldsPoller (fuel : nat) : M unit :=
  match fuel with
  | O => ret tt
  | S fuel' =>
      (* Run for each network in series. *)
      forEachInSeries queueNewShields NETWORK_NAMES ;;
      delay (default DEFAULT_QUEUE_SHIELDS_DELAY_MSEC
               (queueShieldsOverrideDelayMsec config)) ;;
      runQueueShieldsPoller fuel'
  end.

Fixpoint runValidateQueuedShieldsPoller (fuel : nat) : M unit :=
  match fuel with
  | O => ret tt
  | S fuel' =>
      (* Run for each network in series. *)
      forEachInSeries validateNextQueuedShieldBatch NETWORK_NAMES ;;
      delay (default DEFAULT_VALIDATE_SHIELDS_DELAY_MSEC
               (queueShieldsOverrideDelayMsec config)) ;;
      runValidateQueuedShieldsPoller fuel'
  end.

End Pipeline.

(** ** Reading the trace *)

(** The calls made between a world and a later world of the same run. *)
Definition callsSince (w w' : World) : list Call :=
  drop (length (trace w)) (trace w').

Definition producesSignature (c : Call) : bool :=
  match c with
  | SignBlockedShield _ _ _ | SignRemoveProof _ _
  | SignValidatedTxidMerkleroot _ _ => true
  | _ => false
  end.

Definition isHttpRequest (c : Call) : bool :=
  match c with AxiosPost _ _ => true | _ => false end.

Definition consultsPolicyGate (c : Call) : bool :=
  match c with ShouldAllowShield _ _ _ _ => true | _ => false end.

Definition isObserverScan (c : Call) : bool :=
  match c with GetNewShieldsFromWallet _ _ => true | _ => false end.

Definition isStatusWrite (c : Call) : bool :=
  match c with SaveStatus _ _ => true | _ => false end.

Definition isInsertAttempt (c : Call) : bool :=
  match c with InsertPendingShield _ _ => true | _ => false end.

Definition isReceiptFetch (c : Call) : bool :=
  match c with GetTransactionReceipt _ _ => true | _ => false end.

Definition isPendingQuery (c : Call) : bool :=
  match c with GetPendingShields _ _ _ => true | _ => false end.

Definition isDelay (c : Call) : bool :=
  match c with Delay _ => true | _ => false end.


(** The network and the limit of a query for pending rows. *)
Definition pendingQueryOf (c : Call) : option (NetworkName * nat) :=
  match c with
  | GetPendingShields networkName _ limit => Some (networkName, limit)
  | _ => None
  end.

(** The block a queue-shields pass starts from, as [queueNewShields]
    computes it from the stored status. *)
Definition startingBlockOf {environment : Environment}
  (networkName : NetworkName) (w : World) : Z :=
  default (deploymentBlock (networkForName networkName))
          (latestBlockScanned <$> statusStore w !! networkName).

(** The calls one row of the validation pass can make. *)
Definition isRowCall (c : Call) : bool :=
  match c with
  | GetTransactionReceipt _ _ | GetTimestampFromTransactionReceipt _ _
  | ShouldAllowShield _ _ _ _ | QueueUnsignedPOIShieldEvent _ _
  | AddBlockedShield _ _ _ | SignBlockedShield _ _ _
  | UpdateShieldStatus _ _ _ | Dbg _ | DbgShieldDBItem _ => true
  | _ => false
  end.

(** The calls one shield of the queue-shields pass can make. *)
Definition isInsertCall (c : Call) : bool :=
  match c with
  | InsertPendingShield _ _ | Dbg _ | DbgShieldData _ => true
  | _ => false
  end.

(** A batch as a chain of steps, one per element, each with the calls it
    made. *)
Inductive Steps {A} (step : A -> World -> World -> list Call -> Prop)
  : list A -> World -> World -> list Call -> Prop :=
  | steps_nil w : Steps step [] w w []
  | steps_cons x xs w w1 w2 new news :
      step x w w1 new -> Steps step xs w1 w2 news ->
      Steps step (x :: xs) w w2 (new ++ news).

(** The cursor write that ends a pass over [newShields]. *)
Definition cursorWrite (networkName : NetworkName) (newShields : list ShieldData.t)
  : list Call :=
  match last newShields with
  | Some lastShieldScanned =>
      [SaveStatus networkName (ShieldData.blockNumber lastShieldScanned)]
  | None => []
  end.

Section Observations.

Context {environment : Environment} {observer : ChainObserver}
        {signer : Signer} {remoteNode : RemoteNode} {faults : Faults}
        {provider : ListProvider}.

(** What a call to the policy gate must look like: the address is the lower
    case of the sender of the receipt of that transaction. *)
Definition sentLowercase (c : Call) : Prop :=
  match c with
  | ShouldAllowShield networkName txid fromAddress _ =>
      hasUpperCase fromAddress = false /\
      exists receipt,
        transactionReceipt networkName txid = Ok receipt /\
        fromAddress = toLowerCase (TransactionReceipt.from receipt)
  | _ => True
  end.

(** What processing one row in [validateShield] does to the world. *)
Record RowStep (networkName : NetworkName) (row : ShieldQueueRow)
  (w w' : World) (new : list Call) : Prop := {
  step_trace : trace w' = trace w ++ new;
  step_status : statusStore w' = statusStore w;
  step_calls : Forall (fun c => isRowCall c = true) new;
  step_fetch :
    List.filter isReceiptFetch new
    = [GetTransactionReceipt networkName (ShieldQueueDBItem.txid row)];
  step_dbg : forall r, In (DbgShieldDBItem r) new -> r = row;
  step_failed : In (DbgShieldDBItem row) new -> shieldQueue w' = shieldQueue w;
  step_frame : forall r,
    ShieldQueueDBItem.key r <> ShieldQueueDBItem.key row ->
    In r (rowsOf networkName w) -> In r (rowsOf networkName w');
  step_gate : Forall sentLowercase new
}.

(** What queuing one shield in [queueShieldSafe] does to the world. *)
Record InsertStep (networkName : NetworkName) (shieldData : ShieldData.t)
  (w w' : World) (new : list Call) : Prop := {
  ins_trace : trace w' = trace w ++ new;
  ins_status : statusStore w' = statusStore w;
  ins_calls : Forall (fun c => isInsertCall c = true) new;
  ins_attempt :
    List.filter isInsertAttempt new = [InsertPendingShield networkName shieldData];
  ins_rows : exists extra, rowsOf networkName w' = rowsOf networkName w ++ extra;
  ins_done :
    fault (InsertPendingShield networkName shieldData) = None ->
    existsb (hasKey (ShieldData.txid shieldData, ShieldData.hash shieldData))
            (rowsOf networkName w') = true
}.

(** What one network's turn in the validation poller does to the world. *)
Record BatchStep (networkName : NetworkName) (w w' : World) (new : list Call)
  : Prop := {
  batch_trace : trace w' = trace w ++ new;
  batch_calls : Forall (fun c => isDelay c = false) new;
  batch_gate : Forall sentLowercase new
}.

(** The delay between two iterations of the validation poller, as
    [runValidateQueuedShieldsPoller] computes it. *)
Definition validatePollerDelay : Z :=
  default DEFAULT_VALIDATE_SHIELDS_DELAY_MSEC (queueShieldsOverrideDelayMsec config).

End Observations.

(** ** The test list provider and a small world *)

(** src/tests/test-mock-list-provider.test.ts.  The class overrides
    [shouldAllowShield] alone, and its override answers with a bare boolean:
    [false] for the senders listed in [EXCLUDED_ADDRESSES_LOWERCASE], [true]
    for everyone else.  ([MOCK_EXCLUDED_ADDRESS_1] of mocks.test is missing,
    so the list is a parameter.) *)
Module TestMockListProvider.

Definition shouldAllowShield (EXCLUDED_ADDRESSES_LOWERCASE : list string)
  (networkName : NetworkName) (txid fromAddressLowercase : string)
  (timestamp : Z) : Result bool :=
  if existsb (String.eqb fromAddressLowercase) EXCLUDED_ADDRESSES_LOWERCASE
  then Ok false
  else Ok true.

(** What [validateShield] reads from such an answer.  It destructures
    [{ shouldAllow, blockReason }] out of the awaited value; a boolean has
    neither property, so both come out [undefined], whichever boolean it was:
    [shouldAllow] is falsy and there is no block reason. *)
Definition destructured (answer : bool) : Verdict :=
  {| shouldAllow := false; blockReason := None |}.

(** The gate as [validateShield] sees it. *)
Definition policy (EXCLUDED_ADDRESSES_LOWERCASE : list string)
  (networkName : NetworkName) (txid fromAddressLowercase : string)
  (timestamp : Z) : Result Verdict :=
  match
    shouldAllowShield EXCLUDED_ADDRESSES_LOWERCASE networkName txid
      fromAddressLowercase timestamp
  with
  | Ok answer => Ok (destructured answer)
  | Throw err => Throw err
  end.

End TestMockListProvider.

Module Fixture.

Definition Ethereum : string := "Ethereum".

(** One hour of pending period; the cutoff is 10 000 000 - 3 600 000. *)
Definition environment : Environment := {|
  NETWORK_NAMES := [Ethereum];
  HOURS_SHIELD_PENDING_PERIOD := 1;
  networkForName := fun _ => {| deploymentBlock := 14693000 |};
  NETWORK_CONFIG := fun _ => {| chain := Chain.mk 0 1 |};
  isListProvider := false;
  dateNow := 10000000
|}.

Definition cutoff : Z := 6400000.

Definition MOCK_EXCLUDED_ADDRESS_1 : string :=
  "0xde709f2102306220921060314715629080e2fb77".

Definition rowAllowed : ShieldQueueRow :=
  ShieldQueueDBItem.mk "0xa1" "0x01" "0xb1" 100 Pending None.
Definition rowBlocked : ShieldQueueRow :=
  ShieldQueueDBItem.mk "0xa2" "0x02" "0xb2" 50 Pending None.
Definition rowTooNew : ShieldQueueRow :=
  ShieldQueueDBItem.mk "0xa3" "0x03" "0xb3" 70 Pending None.
Definition rowRpcDown : ShieldQueueRow :=
  ShieldQueueDBItem.mk "0xa4" "0x04" "0xb4" 60 Pending None.
Definition rowRecent : ShieldQueueRow :=
  ShieldQueueDBItem.mk "0xa5" "0x05" "0xb5" 9000000 Pending None.
Definition rowDone : ShieldQueueRow :=
  ShieldQueueDBItem.mk "0xa6" "0x06" "0xb6" 10 Allowed None.

Definition receiptAllowed : TransactionReceipt.t :=
  TransactionReceipt.mk "0x52908400098527886E0F7030069857D2E4169EE7" 101.
Definition receiptBlocked : TransactionReceipt.t :=
  TransactionReceipt.mk "0xDE709F2102306220921060314715629080E2FB77" 102.
Definition receiptTooNew : TransactionReceipt.t :=
  TransactionReceipt.mk "0x8617E340B3D01FA5F11F306F4090FD50E238070D" 900.

Definition shield1 : ShieldData.t := ShieldData.mk "0xc1" "0x11" "0xd1" 9100000 130.
Definition shield2 : ShieldData.t := ShieldData.mk "0xc2" "0x12" "0xd2" 9200000 131.
Definition shield3 : ShieldData.t := ShieldData.mk "0xc3" "0x13" "0xd3" 9300000 135.

Definition observer : ChainObserver := {|
  newShieldsFromWallet := fun _ _ => Ok [shield1; shield2; shield3];
  transactionReceipt := fun _ txid =>
    if String.eqb txid "0xa1" then Ok receiptAllowed
    else if String.eqb txid "0xa2" then Ok receiptBlocked
    else if String.eqb txid "0xa3" then Ok receiptTooNew
    else Throw (Error "timeout");
  timestampFromTransactionReceipt := fun _ receipt =>
    if TransactionReceipt.blockNumber receipt =? 900 then Ok 9500000
    else Ok (TransactionReceipt.blockNumber receipt)
|}.

Definition signer : Signer := {|
  listPublicKey := Ok "00";
  blockedShieldSignature := fun _ _ _ => Ok "5b";
  removeProofSignature := fun _ _ => Ok "5c";
  validatedTxidMerklerootSignature := fun _ _ => Ok "5d"
|}.

Definition remoteNode : RemoteNode := {|
  postResponse := fun _ _ => Ok EmptyString
|}.

Definition noFaults : Faults := {| fault := fun _ => None |}.

(** The insert of [shield2] fails. *)
Definition insertFault : Faults := {|
  fault := fun c =>
    match c with
    | InsertPendingShield _ shieldData =>
        if String.eqb (ShieldData.txid shieldData) "0xc2"
        then Some (Error "E11000") else None
    | _ => None
    end
|}.

(** Both overrides are set, to different values. *)
Definition bothOverrides : ListProviderConfig := {|
  name := "Test List";
  description := "test";
  queueShieldsOverrideDelayMsec := Some 60000;
  validateShieldsOverrideDelayMsec := Some 1000
|}.

(** Only the override of the validation poller is set. *)
Definition validateOverrideOnly : ListProviderConfig := {|
  name := "Test List";
  description := "test";
  queueShieldsOverrideDelayMsec := None;
  validateShieldsOverrideDelayMsec := Some 1000
|}.

(** A list provider with key 00 whose gate answers as the abstract class
    asks, with a verdict: it blocks [MOCK_EXCLUDED_ADDRESS_1] and allows every
    other sender. *)
Definition provider (config : ListProviderConfig) : ListProvider := {|
  listKey := "00";
  config := config;
  policy := fun networkName txid fromAddressLowercase timestamp =>
    if existsb (String.eqb fromAddressLowercase) [MOCK_EXCLUDED_ADDRESS_1]
    then Ok {| shouldAllow := false; blockReason := None |}
    else Ok {| shouldAllow := true; blockReason := None |}
|}.

Definition world : World := {|
  shieldQueue :=
    {[ Ethereum :=
         [rowAllowed; rowBlocked; rowTooNew; rowRpcDown; rowRecent; rowDone] ]};
  statusStore := {[ Ethereum := {| latestBlockScanned := 120 |} ]};
  poiEventQueue := [];
  blockedShields := [];
  trace := []
|}.

Definition emptyWorld : World := mkWorld ∅ ∅ [] [] [].

End Fixture.

(** ** What a computation calls and what it keeps *)

(** [OnlyCalls P m]: from any world, [m] appends to the trace, and every
    call it appends satisfies [P]. *)
Definition OnlyCalls {A} (P : Call -> Prop) (m : M A) : Prop :=
  forall w, exists new,
    trace (snd (m w)) = trace w ++ new /\ Forall P new.

(** [Keeps R m]: the world after [m] is related by [R] to the world before,
    whether [m] returns or throws. *)
Definition Keeps {A} (R : World -> World -> Prop) (m : M A) : Prop :=
  forall w, R w (snd (m w)).

Definition sameStatusStore (w w' : World) : Prop :=
  statusStore w' = statusStore w.

Definition sameOutputs (w w' : World) : Prop :=
  poiEventQueue w' = poiEventQueue w /\ blockedShields w' = blockedShields w.

(** No row is added to or removed from any collection (a status may change). *)
Definition sameKeys (w w' : World) : Prop :=
  forall networkName,
    map ShieldQueueDBItem.key (rowsOf networkName w')
    = map ShieldQueueDBItem.key (rowsOf networkName w).

(** Rows are only appended: the rows there were are there, unchanged and in
    place. *)
Definition rowsKept (w w' : World) : Prop :=
  forall networkName, exists extra,
    rowsOf networkName w' = rowsOf networkName w ++ extra.

(** The four stores are as they were; only the trace may differ. *)
Definition sameStores (w w' : World) : Prop :=
  shieldQueue w' = shieldQueue w /\ statusStore w' = statusStore w /\
  poiEventQueue w' = poiEventQueue w /\ blockedShields w' = blockedShields w.

(** The calls of the queue-shields poller. *)
Definition isQueuePollerCall (c : Call) : bool :=
  match c with
  | GetStatus _ | SaveStatus _ _ | GetNewShieldsFromWallet _ _
  | InsertPendingShield _ _ | Dbg _ | DbgShieldData _ | Delay _ => true
  | _ => false
  end.

(** The calls of the validation poller; a status update never asks for
    [Pending]. *)
Definition isValidatePollerCall (c : Call) : bool :=
  match c with
  | GetPendingShields _ _ _ | GetTransactionReceipt _ _
  | GetTimestampFromTransactionReceipt _ _ | ShouldAllowShield _ _ _ _
  | QueueUnsignedPOIShieldEvent _ _ | AddBlockedShield _ _ _
  | SignBlockedShield _ _ _ | Dbg _ | DbgShieldDBItem _ | Delay _ => true
  | UpdateShieldStatus _ _ status => negb (bool_decide (status = Pending))
  | _ => false
  end.

Definition isEventQueued (c : Call) : bool :=
  match c with QueueUnsignedPOIShieldEvent _ _ => true | _ => false end.

Definition isBlockRecorded (c : Call) : bool :=
  match c with AddBlockedShield _ _ _ => true | _ => false end.

Definition isStatusUpdate (c : Call) : bool :=
  match c with UpdateShieldStatus _ _ _ => true | _ => false end.

(** A string without the separator of URL segments. *)
Fixpoint slashFree (s : string) : bool :=
  match s with
  | EmptyString => true
  | String c s' => negb (Ascii.eqb c "/") && slashFree s'
  end.

(** One row costs one receipt look-up and at most one call to the gate. *)
Definition RowCost (row : ShieldQueueRow) (w w' : World) (new : list Call) : Prop :=
  trace w' = trace w ++ new /\
  length (List.filter isReceiptFetch new) = 1%nat /\
  (length (List.filter consultsPolicyGate new) <= 1)%nat.

Section Checks.

Context {environment : Environment} {observer : ChainObserver}
        {signer : Signer} {remoteNode : RemoteNode} {faults : Faults}
        {provider : ListProvider}.

(** What a call to the policy gate looks like in a validation pass: the
    timestamp is the one derived from the receipt of that transaction, and
    it is not later than the cutoff of the pass. *)
Definition gateChecked (c : Call) : Prop :=
  match c with
  | ShouldAllowShield networkName txid _ timestamp =>
      timestamp <= getMaxTimestampForValidation /\
      exists receipt,
        transactionReceipt networkName txid = Ok receipt /\
        timestampFromTransactionReceipt networkName receipt = Ok timestamp
  | _ => True
  end.

(** The delay between two iterations of the queue-shields poller, as
    [runQueueShieldsPoller] computes it. *)
Definition queuePollerDelay : Z :=
  default DEFAULT_QUEUE_SHIELDS_DELAY_MSEC (queueShieldsOverrideDelayMsec config).

(** The URL of a route of a remote node for a network. *)
Definition routeURL (nodeURL route : string) (networkName : NetworkName) : string :=
  let chain := chain (NETWORK_CONFIG networkName) in
  getNodeRouteURL nodeURL
    (route ++ "/" ++ showZ (Chain.type chain) ++ "/" ++ showZ (Chain.id chain))%string.

(** The two lines the handler of [validateShield] writes for an error. *)
Definition validationErrorLog (networkName : NetworkName) (row : ShieldQueueRow)
  (err : JsError) : list Call :=
  [Dbg ("Error validating queued shield on " ++ networkName ++ ": "
        ++ message err)%string;
   DbgShieldDBItem row].

End Checks.

(** ** More of the small world *)

Module Scenario.

Definition Polygon : string := "Polygon".

(** A list provider polling two networks. *)
Definition listProviderEnvironment : Environment := {|
  NETWORK_NAMES := [Fixture.Ethereum; Polygon];
  HOURS_SHIELD_PENDING_PERIOD := 1;
  networkForName := fun _ => {| deploymentBlock := 14693000 |};
  NETWORK_CONFIG := fun networkName =>
    if String.eqb networkName Polygon
    then {| chain := Chain.mk 0 137 |}
    else {| chain := Chain.mk 0 1 |};
  isListProvider := true;
  dateNow := 10000000
|}.

(** The wallet cannot be scanned on Ethereum. *)
Definition scanDown : ChainObserver := {|
  newShieldsFromWallet := fun networkName _ =>
    if String.eqb networkName Fixture.Ethereum
    then Throw (Error "missing response")
    else Ok [];
  transactionReceipt := fun _ _ => Throw (Error "timeout");
  timestampFromTransactionReceipt := fun _ _ => Throw (Error "timeout")
|}.

(** Nothing new on any chain. *)
Definition nothingNew : ChainObserver := {|
  newShieldsFromWallet := fun _ _ => Ok [];
  transactionReceipt := fun _ _ => Throw (Error "timeout");
  timestampFromTransactionReceipt := fun _ _ => Throw (Error "timeout")
|}.

(** The shield queue cannot be written. *)
Definition updateFault : Faults := {|
  fault := fun c =>
    match c with
    | UpdateShieldStatus _ _ _ => Some (Error "not primary")
    | _ => None
    end
|}.

(** The shield queue cannot be read. *)
Definition queryFault : Faults := {|
  fault := fun c =>
    match c with
    | GetPendingShields _ _ _ => Some (Error "not primary")
    | _ => None
    end
|}.

(** A remote node that refuses: 403, with a body. *)
Definition refusingNode : RemoteNode := {|
  postResponse := fun _ _ =>
    Throw (AxiosError "Request failed with status code 403" (Some "Forbidden"))
|}.

(** A signer without a usable key. *)
Definition brokenSigner : Signer := {|
  listPublicKey := Ok "00";
  blockedShieldSignature := fun _ _ _ => Throw (Error "bad key");
  removeProofSignature := fun _ _ => Throw (Error "bad key");
  validatedTxidMerklerootSignature := fun _ _ => Throw (Error "bad key")
|}.

(** A process that holds no key at all: the look-up of the public key throws
    too. *)
Definition keylessSigner : Signer := {|
  listPublicKey := Throw (Error "no key");
  blockedShieldSignature := fun _ _ _ => Throw (Error "no key");
  removeProofSignature := fun _ _ => Throw (Error "no key");
  validatedTxidMerklerootSignature := fun _ _ => Throw (Error "no key")
|}.



End Scenario.

(** * Properties *)

Section Properties.

Context {environment : Environment} {observer : ChainObserver}
        {signer : Signer} {remoteNode : RemoteNode} {faults : Faults}
        {provider : ListProvider}.

Local Open Scope js_scope.

Create HintDb js.
#[local] Hint Unfold tryCatch bind ret throw ask service emit dbg delay
  modifyWorld getWorld liftResult
  setTrace setShieldQueue setStatusStore setPoiEventQueue setBlockedShields
  rowsOf : js.

Ltac unfold_js := repeat (autounfold with js; simpl).

(** ** The trace only grows *)

Lemma callsSince_app w w' new :
  trace w' = trace w ++ new -> callsSince w w' = new.
Proof. intros E. unfold callsSince. rewrite E. apply drop_app_length. Qed.

(** ** Lower case *)

Lemma toLowerCaseChar_not_upper c : isUpperCase (toLowerCaseChar c) = false.
Proof. destruct c as [[] [] [] [] [] [] [] []]; vm_compute; reflexivity. Qed.

Lemma toLowerCase_hasUpperCase s : hasUpperCase (toLowerCase s) = false.
Proof.
  induction s as [|c s IH]; simpl; [reflexivity|].
  rewrite toLowerCaseChar_not_upper, IH. reflexivity.
Qed.

(** ** The shield queue collection *)

Lemma default_lookup_insert_eq networkName (rows : list ShieldQueueRow)
  (q : gmap string (list ShieldQueueRow)) :
  default [] (<[networkName := rows]> q !! networkName) = rows.
Proof. rewrite lookup_insert_eq. reflexivity. Qed.

Lemma withStatus_frame k st rows (r : ShieldQueueRow) :
  ShieldQueueDBItem.key r <> k -> In r rows -> In r (withStatus k st rows).
Proof.
  intros Hk Hin. unfold withStatus. apply in_map_iff. exists r. split; [|exact Hin].
  unfold hasKey. rewrite bool_decide_eq_false_2; [reflexivity|exact Hk].
Qed.

(** ** One row of the validation pass *)

Ltac solve_in :=
  repeat match goal with
  | Hin : In _ _ |- _ => simpl in Hin
  | Hin : _ \/ _ |- _ => destruct Hin
  | Hin : False |- _ => destruct Hin
  | Heq : _ = _ |- _ => first [discriminate Heq | progress (injection Heq as ?; subst)]
  end.

Lemma validateShield_step networkName row endTimestamp w :
  exists new,
    fst (validateShield networkName row endTimestamp w) = Ok tt /\
    RowStep networkName row w
      (snd (validateShield networkName row endTimestamp w)) new.
Proof.
  unfold validateShield, getTransactionReceipt, getTimestampFromTransactionReceipt,
    shouldAllowShield, queueUnsignedPOIShieldEvent, addBlockedShield,
    signBlockedShield, updateShieldStatus.
  unfold_js.
  repeat (case_match; simplify_eq; simpl);
  (eexists; split; [reflexivity|]; split; simpl;
   [ rewrite <- ?app_assoc; simpl; reflexivity
   | reflexivity
   | repeat constructor
   | reflexivity
   | intros; solve_in; try reflexivity
   | intros; solve_in; try reflexivity
   | intros; try assumption
   | repeat constructor; simpl; auto using toLowerCase_hasUpperCase; eauto ]).
  all: unfold rowsOf in *; simpl; rewrite default_lookup_insert_eq;
    apply withStatus_frame; assumption.
Qed.

(** ** Batches *)

Lemma promiseAll_steps {A} (f : A -> M unit)
  (step : A -> World -> World -> list Call -> Prop) :
  (forall x w, exists new, fst (f x w) = Ok tt /\ step x w (snd (f x w)) new) ->
  forall xs w, exists news,
    fst (promiseAll (map f xs) w) = Ok tt /\
    Steps step xs w (snd (promiseAll (map f xs) w)) news.
Proof.
  intros Hf xs. induction xs as [|x xs IH]; intros w; simpl.
  - exists []. split; [reflexivity|constructor].
  - destruct (Hf x w) as (new & Hok & Hstep).
    destruct (f x w) as [r w1]; simpl in *; subst r.
    destruct (IH w1) as (news & Hoks & Hsteps).
    exists (new ++ news). split; [exact Hoks|].
    econstructor; eassumption.
Qed.

Lemma Steps_trace {A} (step : A -> World -> World -> list Call -> Prop) :
  (forall x w w' new, step x w w' new -> trace w' = trace w ++ new) ->
  forall xs w w' news, Steps step xs w w' news -> trace w' = trace w ++ news.
Proof.
  intros Hs xs w w' news Hst. induction Hst as [w|x xs w w1 w2 new news Hx _ IH].
  - rewrite app_nil_r. reflexivity.
  - rewrite IH, (Hs _ _ _ _ Hx), app_assoc. reflexivity.
Qed.

Lemma Steps_Forall {A} (step : A -> World -> World -> list Call -> Prop)
  (P : Call -> Prop) :
  (forall x w w' new, step x w w' new -> Forall P new) ->
  forall xs w w' news, Steps step xs w w' news -> Forall P news.
Proof.
  intros Hs xs w w' news Hst. induction Hst as [w|x xs w w1 w2 new news Hx _ IH].
  - constructor.
  - apply Forall_app. split; [eapply Hs; eassumption|exact IH].
Qed.

Lemma Steps_filter {A} (step : A -> World -> World -> list Call -> Prop)
  (p : Call -> bool) (g : A -> Call) :
  (forall x w w' new, step x w w' new -> List.filter p new = [g x]) ->
  forall xs w w' news, Steps step xs w w' news -> List.filter p news = map g xs.
Proof.
  intros Hs xs w w' news Hst. induction Hst as [w|x xs w w1 w2 new news Hx _ IH].
  - reflexivity.
  - rewrite List.filter_app, IH, (Hs _ _ _ _ Hx). reflexivity.
Qed.

(** ** The validation pass on a batch *)

Lemma validate_batch_steps networkName endTimestamp rows w :
  exists news,
    fst (promiseAll (map (fun shieldData =>
           validateShield networkName shieldData endTimestamp) rows) w) = Ok tt /\
    Steps (RowStep networkName) rows w
      (snd (promiseAll (map (fun shieldData =>
              validateShield networkName shieldData endTimestamp) rows) w)) news.
Proof.
  apply (promiseAll_steps
           (fun shieldData => validateShield networkName shieldData endTimestamp)).
  intros x w0. apply validateShield_step.
Qed.





(** ** One shield of the queue-shields pass *)


Lemma hasKey_pendingRow shieldData :
  hasKey (ShieldData.txid shieldData, ShieldData.hash shieldData)
         (pendingRow shieldData) = true.
Proof. unfold hasKey. apply bool_decide_eq_true_2. reflexivity. Qed.

Lemma queueShieldSafe_step networkName shieldData w :
  exists new,
    fst (queueShieldSafe networkName shieldData w) = Ok tt /\
    InsertStep networkName shieldData w
      (snd (queueShieldSafe networkName shieldData w)) new.
Proof.
  unfold queueShieldSafe, insertPendingShield. unfold_js.
  destruct (fault (InsertPendingShield networkName shieldData)) as [e|] eqn:Hf;
    simpl.
  - eexists. split; [reflexivity|]. split; simpl.
    + rewrite <- ?app_assoc. reflexivity.
    + reflexivity.
    + repeat constructor.
    + reflexivity.
    + exists []. rewrite app_nil_r. reflexivity.
    + congruence.
  - destruct (existsb _ _) eqn:Hex; simpl.
    + eexists. split; [reflexivity|]. split; simpl; try reflexivity.
      * repeat constructor.
      * exists []. rewrite app_nil_r. reflexivity.
      * intros _. exact Hex.
    + eexists. split; [reflexivity|]. split; simpl; try reflexivity.
      * repeat constructor.
      * eexists. unfold rowsOf. simpl. rewrite default_lookup_insert_eq.
        reflexivity.
      * intros _. unfold rowsOf. simpl. rewrite default_lookup_insert_eq.
        rewrite existsb_app. simpl. rewrite hasKey_pendingRow.
        rewrite orb_true_r. reflexivity.
Qed.

Lemma insert_batch_steps networkName shields w :
  exists news,
    fst (promiseAll (map (fun shieldData =>
           queueShieldSafe networkName shieldData) shields) w) = Ok tt /\
    Steps (InsertStep networkName) shields w
      (snd (promiseAll (map (fun shieldData =>
              queueShieldSafe networkName shieldData) shields) w)) news.
Proof.
  apply (promiseAll_steps (fun shieldData => queueShieldSafe networkName shieldData)).
  intros x w0. apply queueShieldSafe_step.
Qed.



(** ** The queue-shields pass *)

Lemma last_index {A} (l : list A) : l !! (length l - 1)%nat = last l.
Proof. rewrite last_lookup. f_equal. lia. Qed.

Lemma startingBlockOf_cases networkName w :
  startingBlockOf networkName w =
  match statusStore w !! networkName with
  | Some status => latestBlockScanned status
  | None => deploymentBlock (networkForName networkName)
  end.
Proof. unfold startingBlockOf. destruct (statusStore w !! networkName); reflexivity. Qed.

Lemma queueNewShields_run networkName w newShields :
  fault (GetStatus networkName) = None ->
  newShieldsFromWallet networkName (startingBlockOf networkName w) = Ok newShields ->
  exists w1 w2 news,
    trace w1 = trace w ++
      [GetStatus networkName;
       GetNewShieldsFromWallet networkName (startingBlockOf networkName w);
       Dbg ("[" ++ networkName ++ "] Attempting to insert "
            ++ showZ (Z.of_nat (length newShields)) ++ " pending shields")%string] /\
    statusStore w1 = statusStore w /\
    rowsOf networkName w1 = rowsOf networkName w /\
    Steps (InsertStep networkName) newShields w1 w2 news /\
    queueNewShields networkName w =
      match last newShields with
      | Some lastShieldScanned =>
          saveStatus networkName (ShieldData.blockNumber lastShieldScanned) w2
      | None => (Ok tt, w2)
      end.
Proof.
  intros Hs Ho.
  unfold queueNewShields, getStatus, getNewShieldsFromWallet.
  unfold bind at 1. unfold bind at 1. unfold service at 1. unfold bind at 1.
  unfold emit at 1. unfold modifyWorld at 1. rewrite Hs.
  unfold ret at 1. unfold bind at 1. unfold getWorld at 1. unfold ret at 1.
  simpl statusStore. fold (startingBlockOf networkName w).
  unfold bind at 1. unfold ask at 1. unfold bind at 1. unfold emit at 1.
  unfold modifyWorld at 1. unfold liftResult at 1. rewrite Ho.
  unfold bind at 1. unfold dbg at 1. unfold emit at 1. unfold modifyWorld at 1.
  unfold bind at 1.
  match goal with
  | |- context [promiseAll ?ts ?w1] =>
      destruct (insert_batch_steps networkName newShields w1) as (news & Hok & Hst);
      destruct (promiseAll ts w1) as [r w2] eqn:Hrun;
      exists w1, w2, news
  end.
  simpl in Hok, Hst. subst r.
  split; [simpl; rewrite <- !app_assoc; reflexivity|].
  split; [reflexivity|]. split; [reflexivity|]. split; [exact Hst|].
  rewrite last_index.
  destruct newShields as [|s0 rest]; [reflexivity|].
  replace (0 <? length (s0 :: rest))%nat with true
    by (symmetry; apply Nat.ltb_lt; simpl; lia).
  destruct (last (s0 :: rest)) as [l|] eqn:Hl; [reflexivity|].
  apply last_None in Hl. discriminate.
Qed.

Lemma filter_disjoint (p q : Call -> bool) l :
  (forall c, q c = true -> p c = false) ->
  Forall (fun c => q c = true) l -> List.filter p l = [].
Proof.
  intros Hpq Hl. induction Hl as [|c l Hc _ IH]; simpl; [reflexivity|].
  rewrite (Hpq c Hc). exact IH.
Qed.

Lemma saveStatus_trace networkName block w :
  trace (snd (saveStatus networkName block w))
  = trace w ++ [SaveStatus networkName block] /\
  shieldQueue (snd (saveStatus networkName block w)) = shieldQueue w.
Proof.
  unfold saveStatus. unfold_js.
  repeat (case_match; simplify_eq; simpl); split; reflexivity.
Qed.

Lemma saveStatus_accepted networkName block w :
  fault (SaveStatus networkName block) = None ->
  (forall current, statusStore w !! networkName = Some current ->
                   latestBlockScanned current <= block) ->
  fst (saveStatus networkName block w) = Ok tt /\
  statusStore (snd (saveStatus networkName block w))
  = <[networkName := {| latestBlockScanned := block |}]> (statusStore w).
Proof.
  intros Hf Hmono. unfold saveStatus. unfold_js. rewrite Hf. simpl.
  destruct (statusStore w !! networkName) as [current|] eqn:Hc; simpl.
  - destruct (Z.ltb_spec block (latestBlockScanned current)) as [Hlt|Hge]; simpl.
    + specialize (Hmono current eq_refl). lia.
    + split; reflexivity.
  - split; reflexivity.
Qed.

Lemma InsertSteps_status networkName shields w w' news :
  Steps (InsertStep networkName) shields w w' news ->
  statusStore w' = statusStore w.
Proof.
  induction 1 as [w|x xs w w1 w2 new news Hx _ IH]; [reflexivity|].
  rewrite IH. eapply ins_status; eassumption.
Qed.

Lemma InsertSteps_trace networkName shields w w' news :
  Steps (InsertStep networkName) shields w w' news ->
  trace w' = trace w ++ news.
Proof. apply Steps_trace. intros x w0 w0' new Hx. eapply ins_trace; eassumption. Qed.

Lemma InsertSteps_calls networkName shields w w' news :
  Steps (InsertStep networkName) shields w w' news ->
  Forall (fun c => isInsertCall c = true) news.
Proof. apply Steps_Forall. intros x w0 w0' new Hx. eapply ins_calls; eassumption. Qed.

Lemma InsertSteps_attempts networkName shields w w' news :
  Steps (InsertStep networkName) shields w w' news ->
  List.filter isInsertAttempt news = map (InsertPendingShield networkName) shields.
Proof.
  apply (Steps_filter _ isInsertAttempt (InsertPendingShield networkName)).
  intros x w0 w0' new Hx. eapply ins_attempt; eassumption.
Qed.

(** The calls of one queue-shields pass. *)
Lemma queueNewShields_calls networkName w newShields :
  fault (GetStatus networkName) = None ->
  newShieldsFromWallet networkName (startingBlockOf networkName w) = Ok newShields ->
  exists news,
    Forall (fun c => isInsertCall c = true) news /\
    List.filter isInsertAttempt news
    = map (InsertPendingShield networkName) newShields /\
    callsSince w (snd (queueNewShields networkName w)) =
      [GetStatus networkName;
       GetNewShieldsFromWallet networkName (startingBlockOf networkName w);
       Dbg ("[" ++ networkName ++ "] Attempting to insert "
            ++ showZ (Z.of_nat (length newShields)) ++ " pending shields")%string]
      ++ news ++ cursorWrite networkName newShields.
Proof.
  intros Hs Ho.
  destruct (queueNewShields_run networkName w newShields Hs Ho)
    as (w1 & w2 & news & Ht1 & _ & _ & Hst & Hrun).
  exists news. split; [eapply InsertSteps_calls; eassumption|].
  split; [eapply InsertSteps_attempts; eassumption|].
  apply callsSince_app. rewrite Hrun. unfold cursorWrite.
  pose proof (InsertSteps_trace _ _ _ _ _ Hst) as Ht2.
  destruct (last newShields) as [l|]; simpl.
  - rewrite (proj1 (saveStatus_trace _ _ _)), Ht2, Ht1.
    rewrite <- !app_assoc. reflexivity.
  - rewrite Ht2, Ht1, app_nil_r, <- !app_assoc. reflexivity.
Qed.

(** C7.  A queue-shields pass asks the chain observer for the shields from
    the stored [latestBlockScanned], or from the network's [deploymentBlock]
    when nothing is stored; it writes the status store exactly when the
    observer returned at least one shield, and what it writes is the
    [blockNumber] of the last shield returned.  (The store is the one
    described by the specification: it takes the write unless that would
    lower the cursor.) *)
Theorem queueNewShields_cursor networkName w newShields :
  fault (GetStatus networkName) = None ->
  newShieldsFromWallet networkName (startingBlockOf networkName w) = Ok newShields ->
  let w' := snd (queueNewShields networkName w) in
  startingBlockOf networkName w =
    match statusStore w !! networkName with
    | Some status => latestBlockScanned status
    | None => deploymentBlock (networkForName networkName)
    end /\
  List.filter isObserverScan (callsSince w w')
  = [GetNewShieldsFromWallet networkName (startingBlockOf networkName w)] /\
  List.filter isStatusWrite (callsSince w w') =
    match last newShields with
    | Some lastShieldScanned =>
        [SaveStatus networkName (ShieldData.blockNumber lastShieldScanned)]
    | None => []
    end /\
  (newShields = [] -> statusStore w' = statusStore w) /\
  (forall lastShieldScanned,
     last newShields = Some lastShieldScanned ->
     fault (SaveStatus networkName (ShieldData.blockNumber lastShieldScanned)) = None ->
     (forall current, statusStore w !! networkName = Some current ->
        latestBlockScanned current <= ShieldData.blockNumber lastShieldScanned) ->
     statusStore w' =
       <[networkName :=
           {| latestBlockScanned := ShieldData.blockNumber lastShieldScanned |}]>
         (statusStore w)).
Proof.
  intros Hs Ho w'. subst w'.
  split; [apply startingBlockOf_cases|].
  destruct (queueNewShields_calls networkName w newShields Hs Ho)
    as (news & Hcalls & _ & Hsince).
  rewrite Hsince, !List.filter_app.
  rewrite (filter_disjoint isObserverScan isInsertCall news);
    [|intros []; simpl; congruence|exact Hcalls].
  rewrite (filter_disjoint isStatusWrite isInsertCall news);
    [|intros []; simpl; congruence|exact Hcalls].
  destruct (queueNewShields_run networkName w newShields Hs Ho)
    as (w1 & w2 & news' & _ & Hs1 & _ & Hst & Hrun).
  pose proof (InsertSteps_status _ _ _ _ _ Hst) as Hs2.
  unfold cursorWrite. rewrite Hrun.
  split; [destruct (last newShields); reflexivity|].
  split; [destruct (last newShields); reflexivity|].
  split.
  - intros ->. simpl. congruence.
  - intros l Hl Hf Hmono. rewrite Hl.
    rewrite (proj2 (saveStatus_accepted _ _ w2 Hf ltac:(rewrite Hs2, Hs1; exact Hmono))).
    congruence.
Qed.

(** ** The validation pass *)

Lemma RowSteps_trace networkName rows w w' news :
  Steps (RowStep networkName) rows w w' news -> trace w' = trace w ++ news.
Proof. apply Steps_trace. intros x w0 w0' new Hx. eapply step_trace; eassumption. Qed.

Lemma RowSteps_calls networkName rows w w' news :
  Steps (RowStep networkName) rows w w' news ->
  Forall (fun c => isRowCall c = true) news.
Proof. apply Steps_Forall. intros x w0 w0' new Hx. eapply step_calls; eassumption. Qed.

Lemma RowSteps_gate networkName rows w w' news :
  Steps (RowStep networkName) rows w w' news -> Forall sentLowercase news.
Proof. apply Steps_Forall. intros x w0 w0' new Hx. eapply step_gate; eassumption. Qed.


(** One pass, when the query for the pending rows is answered: the query,
    the announcement if there is anything to do, then one step per row of
    the batch. *)
Lemma validateNextQueuedShieldBatch_run networkName w :
  let endTimestamp := getMaxTimestampForValidation in
  let batch := pendingShieldsOf endTimestamp 100 (rowsOf networkName w) in
  fault (GetPendingShields networkName endTimestamp 100) = None ->
  exists w1 news header,
    trace w1 = trace w ++ GetPendingShields networkName endTimestamp 100 :: header /\
    Forall (fun c => isRowCall c = true) header /\
    List.filter isReceiptFetch header = [] /\
    (forall r, ~ In (DbgShieldDBItem r) header) /\
    Forall sentLowercase header /\
    shieldQueue w1 = shieldQueue w /\
    Steps (RowStep networkName) batch w1
      (snd (validateNextQueuedShieldBatch networkName w)) news /\
    fst (validateNextQueuedShieldBatch networkName w) = Ok tt.
Proof.
  intros endTimestamp batch Hf.
  unfold validateNextQueuedShieldBatch, getPendingShields.
  fold endTimestamp. unfold_js. rewrite Hf. simpl.
  fold (rowsOf networkName w). fold batch.
  destruct (bool_decide (length batch = 0%nat)) eqn:Hlen.
  - apply bool_decide_eq_true_1, nil_length_inv in Hlen. rewrite Hlen.
    exists (setTrace
              (trace w ++ [GetPendingShields networkName endTimestamp 100]) w),
      [], [].
    simpl. repeat split; try reflexivity; try constructor. intros r [].
  - cbv beta iota.
    match goal with
    | |- context [promiseAll ?ts ?w1] =>
        destruct (validate_batch_steps networkName endTimestamp batch w1)
          as (news & Hok & Hst);
        exists w1, news
    end.
    eexists [_]. simpl trace. simpl shieldQueue.
    split; [rewrite <- app_assoc; reflexivity|].
    split; [repeat constructor|]. split; [reflexivity|].
    split; [intros r [E|[]]; discriminate E|].
    split; [repeat constructor|]. split; [reflexivity|].
    split; assumption.
Qed.

(** One pass never throws, and what it calls is harmless to the poller. *)
Lemma validateNextQueuedShieldBatch_step networkName w :
  exists new,
    fst (validateNextQueuedShieldBatch networkName w) = Ok tt /\
    BatchStep networkName w
      (snd (validateNextQueuedShieldBatch networkName w)) new.
Proof.
  destruct (fault (GetPendingShields networkName getMaxTimestampForValidation 100))
    as [e|] eqn:Hf.
  - unfold validateNextQueuedShieldBatch, getPendingShields. unfold_js.
    rewrite Hf. simpl. eexists. split; [reflexivity|].
    split; simpl; [rewrite <- app_assoc; reflexivity| |]; repeat constructor.
  - destruct (validateNextQueuedShieldBatch_run networkName w Hf)
      as (w1 & news & header & Ht1 & Hh & _ & _ & Hg & _ & Hst & Hok).
    eexists. split; [exact Hok|].
    pose proof (RowSteps_calls _ _ _ _ _ Hst) as Hc.
    split.
    + rewrite (RowSteps_trace _ _ _ _ _ Hst), Ht1, <- app_assoc. reflexivity.
    + constructor; [reflexivity|]. apply Forall_app. split.
      * eapply Forall_impl; [exact Hh|]. intros []; simpl; congruence.
      * eapply Forall_impl; [exact Hc|]. intros []; simpl; congruence.
    + constructor; [exact I|]. apply Forall_app. split; [exact Hg|].
      eapply RowSteps_gate; eassumption.
Qed.

(** ** The pollers *)

Lemma forEachInSeries_steps {A} (f : A -> M unit)
  (step : A -> World -> World -> list Call -> Prop) :
  (forall x w, exists new, fst (f x w) = Ok tt /\ step x w (snd (f x w)) new) ->
  forall xs w, exists news,
    fst (forEachInSeries f xs w) = Ok tt /\
    Steps step xs w (snd (forEachInSeries f xs w)) news.
Proof.
  intros Hf xs. induction xs as [|x xs IH]; intros w; simpl.
  - exists []. split; [reflexivity|constructor].
  - destruct (Hf x w) as (new & Hok & Hstep). unfold bind.
    destruct (f x w) as [r w1]; simpl in *; subst r.
    destruct (IH w1) as (news & Hoks & Hsteps).
    exists (new ++ news). split; [exact Hoks|].
    econstructor; eassumption.
Qed.

Lemma filter_none (p : Call -> bool) l :
  Forall (fun c => p c = false) l -> List.filter p l = [].
Proof.
  induction 1 as [|c l Hc _ IH]; simpl; [reflexivity|]. rewrite Hc. exact IH.
Qed.

Lemma runValidateQueuedShieldsPoller_S fuel w :
  runValidateQueuedShieldsPoller (S fuel) w =
  match forEachInSeries validateNextQueuedShieldBatch NETWORK_NAMES w with
  | (Ok _, w1) =>
      runValidateQueuedShieldsPoller fuel
        (setTrace (trace w1 ++ [Delay validatePollerDelay]) w1)
  | (Throw e, w1) => (Throw e, w1)
  end.
Proof. reflexivity. Qed.

(** The validation poller runs every iteration it is given fuel for: no
    iteration throws, and after each one it sleeps [validatePollerDelay]. *)
Lemma runValidateQueuedShieldsPoller_run fuel w :
  exists new,
    fst (runValidateQueuedShieldsPoller fuel w) = Ok tt /\
    trace (snd (runValidateQueuedShieldsPoller fuel w)) = trace w ++ new /\
    Forall sentLowercase new /\
    List.filter isDelay new = repeat (Delay validatePollerDelay) fuel.
Proof.
  revert w. induction fuel as [|fuel IH]; intros w.
  - exists []. simpl. rewrite app_nil_r. repeat split; constructor.
  - rewrite runValidateQueuedShieldsPoller_S.
    destruct (forEachInSeries_steps validateNextQueuedShieldBatch BatchStep
                validateNextQueuedShieldBatch_step NETWORK_NAMES w)
      as (news & Hok & Hst).
    destruct (forEachInSeries validateNextQueuedShieldBatch NETWORK_NAMES w)
      as [r w1]; simpl in Hok, Hst; subst r.
    destruct (IH (setTrace (trace w1 ++ [Delay validatePollerDelay]) w1))
      as (new & Hok2 & Ht2 & Hg2 & Hd2).
    exists (news ++ Delay validatePollerDelay :: new).
    split; [exact Hok2|]. split; [|split].
    + rewrite Ht2. simpl.
      rewrite (Steps_trace BatchStep batch_trace _ _ _ _ Hst), <- !app_assoc.
      reflexivity.
    + apply Forall_app. split.
      * eapply (Steps_Forall BatchStep sentLowercase); [|exact Hst].
        intros x w0 w0' new0 Hx. eapply batch_gate; eassumption.
      * constructor; [exact I|exact Hg2].
    + rewrite List.filter_app. simpl. rewrite Hd2.
      rewrite filter_none; [reflexivity|].
      eapply (Steps_Forall BatchStep (fun c => isDelay c = false)); [|exact Hst].
      intros x w0 w0' new0 Hx. eapply batch_calls; eassumption.
Qed.

(** The delays of the validation poller, for every configuration: one per
    iteration, each of [validatePollerDelay]. *)
Lemma runValidateQueuedShieldsPoller_delays fuel w :
  List.filter isDelay
    (callsSince w (snd (runValidateQueuedShieldsPoller fuel w)))
  = repeat (Delay validatePollerDelay) fuel.
Proof.
  destruct (runValidateQueuedShieldsPoller_run fuel w)
    as (new & _ & Ht & _ & Hdelays).
  rewrite (callsSince_app _ _ _ Ht). exact Hdelays.
Qed.

(** ** The order and the cut of [getPendingShields] *)

#[local] Instance byTimestamp_trans : Transitive byTimestamp.
Proof. unfold byTimestamp. intros x y z Hxy Hyz. lia. Qed.

#[local] Instance byTimestamp_total : Total byTimestamp.
Proof. unfold byTimestamp. intros x y. lia. Qed.

Lemma StronglySorted_take {A} (R : relation A) n l :
  StronglySorted R l -> StronglySorted R (take n l).
Proof.
  intros Hs. revert n. induction Hs as [|x l Hl IH Hx]; intros [|n]; simpl;
    try constructor.
  - apply IH.
  - apply Forall_take. exact Hx.
Qed.

Lemma pendingShieldsOf_eligible endTimestamp limit rows :
  Forall (fun r => ShieldQueueDBItem.status r = Pending /\
                   ShieldQueueDBItem.timestamp r <= endTimestamp /\
                   In r rows)
         (pendingShieldsOf endTimestamp limit rows).
Proof.
  apply Forall_forall. intros r Hin.
  unfold pendingShieldsOf in Hin.
  apply elem_of_take in Hin as (i & Hi & _).
  apply list_elem_of_lookup_2 in Hi.
  rewrite merge_sort_Permutation in Hi.
  apply list_elem_of_filter in Hi as [[Hst Hts] Hr].
  repeat split; [exact Hst|exact Hts|]. apply list_elem_of_In, Hr.
Qed.

Lemma pendingShieldsOf_length endTimestamp limit rows :
  length (pendingShieldsOf endTimestamp limit rows)
  = (limit `min` length (filter (isEligible endTimestamp) rows))%nat.
Proof.
  unfold pendingShieldsOf. rewrite length_take.
  rewrite (Permutation_length (merge_sort_Permutation _ _)). reflexivity.
Qed.

Lemma pendingShieldsOf_sorted endTimestamp limit rows :
  StronglySorted byTimestamp (pendingShieldsOf endTimestamp limit rows).
Proof.
  unfold pendingShieldsOf. apply StronglySorted_take.
  apply StronglySorted_merge_sort; apply _.
Qed.


(** The validation pass asks for the pending rows once, with limit 100. *)
Lemma validateNextQueuedShieldBatch_query networkName w :
  List.filter isPendingQuery
    (callsSince w (snd (validateNextQueuedShieldBatch networkName w)))
  = [GetPendingShields networkName getMaxTimestampForValidation 100].
Proof.
  destruct (fault (GetPendingShields networkName getMaxTimestampForValidation 100))
    as [e|] eqn:Hf.
  - unfold validateNextQueuedShieldBatch, getPendingShields. unfold_js.
    rewrite Hf. simpl.
    erewrite callsSince_app by (simpl; rewrite <- app_assoc; reflexivity).
    reflexivity.
  - destruct (validateNextQueuedShieldBatch_run networkName w Hf)
      as (w1 & news & header & Ht1 & Hh & _ & _ & _ & _ & Hst & _).
    erewrite callsSince_app
      by (rewrite (RowSteps_trace _ _ _ _ _ Hst), Ht1, <- app_assoc; reflexivity).
    simpl. rewrite List.filter_app.
    rewrite (filter_disjoint isPendingQuery isRowCall header);
      [|intros []; simpl; congruence|exact Hh].
    rewrite (filter_disjoint isPendingQuery isRowCall news);
      [reflexivity|intros []; simpl; congruence|].
    eapply RowSteps_calls; eassumption.
Qed.

(** ** Finding a row by its index *)




(** ** The claims *)


(** C6.  A row whose timestamp, re-derived from the receipt, is later than
    the cutoff is given up: nothing is written to the shield queue (a
    pending row stays the pending row it was), the policy gate is not called,
    the event queue and the blocked shields are as before.  The only calls
    are the two look-ups and the two debug lines of the handler. *)
Theorem validateShield_too_new
  networkName row endTimestamp w receipt timestamp :
  transactionReceipt networkName (ShieldQueueDBItem.txid row) = Ok receipt ->
  timestampFromTransactionReceipt networkName receipt = Ok timestamp ->
  timestamp > endTimestamp ->
  let w' := snd (validateShield networkName row endTimestamp w) in
  fst (validateShield networkName row endTimestamp w) = Ok tt /\
  shieldQueue w' = shieldQueue w /\
  (In row (rowsOf networkName w) -> ShieldQueueDBItem.status row = Pending ->
   In row (rowsOf networkName w')) /\
  poiEventQueue w' = poiEventQueue w /\
  blockedShields w' = blockedShields w /\
  List.filter consultsPolicyGate (callsSince w w') = [] /\
  callsSince w w' =
    [GetTransactionReceipt networkName (ShieldQueueDBItem.txid row);
     GetTimestampFromTransactionReceipt networkName receipt;
     Dbg ("Error validating queued shield on " ++ networkName
          ++ ": Invalid timestamp")%string;
     DbgShieldDBItem row].
Proof.
  intros Hr Ht Hgt.
  assert (Hrun : validateShield networkName row endTimestamp w =
    (Ok tt,
     setTrace
       (trace w ++
        [GetTransactionReceipt networkName (ShieldQueueDBItem.txid row);
         GetTimestampFromTransactionReceipt networkName receipt;
         Dbg ("Error validating queued shield on " ++ networkName
              ++ ": Invalid timestamp")%string;
         DbgShieldDBItem row]) w)).
  { unfold validateShield, getTransactionReceipt,
      getTimestampFromTransactionReceipt.
    unfold_js. rewrite Hr. simpl. rewrite Ht. simpl.
    destruct (Z.ltb_spec endTimestamp timestamp) as [_|Hle]; [|lia].
    simpl. rewrite <- !app_assoc. reflexivity. }
  rewrite Hrun. unfold callsSince. simpl. rewrite drop_app_length.
  repeat split; auto.
Qed.

(** C9.  In any run of the validation poller, every call to the policy gate
    carries the lower case of the sender of that transaction's receipt, and
    the address it carries has no upper-case character. *)
Theorem policy_gate_receives_lowercase
  fuel w networkName txid fromAddress timestamp :
  In (ShouldAllowShield networkName txid fromAddress timestamp)
     (callsSince w (snd (runValidateQueuedShieldsPoller fuel w))) ->
  hasUpperCase fromAddress = false /\
  exists receipt,
    transactionReceipt networkName txid = Ok receipt /\
    fromAddress = toLowerCase (TransactionReceipt.from receipt).
Proof.
  destruct (runValidateQueuedShieldsPoller_run fuel w)
    as (new & _ & Ht & Hgate & _).
  rewrite (callsSince_app _ _ _ Ht). intros Hin.
  rewrite Forall_forall in Hgate.
  apply (Hgate (ShouldAllowShield networkName txid fromAddress timestamp)).
  apply list_elem_of_In, Hin.
Qed.

(** C10.  When the process is not a list provider, [removeTransactProof]
    returns at once and leaves the world as it was; and
    [submitValidatedTxidAndMerkleroot] makes one call only, the look-up of
    the list's public key, which comes before its guard: it returns when
    that look-up answers and throws the error of the look-up when it throws.
    Neither asks for a signature nor posts to the remote node. *)
Theorem not_a_list_provider_no_signature_no_request
  nodeURL networkName txidVersion key blindedCommitmentsOut
  railgunTxidIfHasUnshield txidIndex merkleroot w :
  isListProvider = false ->
  let removed :=
    removeTransactProof nodeURL networkName txidVersion key
      blindedCommitmentsOut railgunTxidIfHasUnshield w in
  let submitted :=
    submitValidatedTxidAndMerkleroot nodeURL networkName txidVersion
      txidIndex merkleroot w in
  removed = (Ok tt, w) /\
  snd submitted = setTrace (trace w ++ [GetListPublicKey]) w /\
  fst submitted =
    match listPublicKey with Ok _ => Ok tt | Throw e => Throw e end /\
  List.filter producesSignature (callsSince w (snd removed)) = [] /\
  List.filter isHttpRequest (callsSince w (snd removed)) = [] /\
  List.filter producesSignature (callsSince w (snd submitted)) = [] /\
  List.filter isHttpRequest (callsSince w (snd submitted)) = [].
Proof.
  intros Hlp removed submitted.
  assert (Hrem : removed = (Ok tt, w)).
  { subst removed. unfold removeTransactProof. rewrite Hlp. reflexivity. }
  assert (Hsub : submitted =
    (match listPublicKey with Ok _ => Ok tt | Throw e => Throw e end,
     setTrace (trace w ++ [GetListPublicKey]) w)).
  { subst submitted. unfold submitValidatedTxidAndMerkleroot, getListPublicKey.
    unfold_js. rewrite Hlp. destruct listPublicKey; reflexivity. }
  rewrite Hrem, Hsub. unfold callsSince. simpl.
  rewrite drop_app_length, drop_all.
  repeat split.
Qed.

(** C5.  When the shield queue answers, [getPendingShields] returns rows of
    the collection that are [Pending] and not later than [endTimestamp], at
    most [limit] of them (as many as there are, up to [limit]), in ascending
    order of [timestamp]; it returns nothing on an empty collection; and the
    validation pass calls it once, with limit 100. *)
Theorem getPendingShields_eligible_capped_sorted
  networkName endTimestamp limit w :
  fault (GetPendingShields networkName endTimestamp limit) = None ->
  exists rows,
    fst (getPendingShields networkName endTimestamp limit w) = Ok rows /\
    Forall (fun r => ShieldQueueDBItem.status r = Pending /\
                     ShieldQueueDBItem.timestamp r <= endTimestamp /\
                     In r (rowsOf networkName w)) rows /\
    (length rows <= limit)%nat /\
    length rows
    = (limit `min`
       length (filter (isEligible endTimestamp) (rowsOf networkName w)))%nat /\
    StronglySorted byTimestamp rows /\
    (rowsOf networkName w = [] -> rows = []) /\
    List.filter isPendingQuery
      (callsSince w (snd (validateNextQueuedShieldBatch networkName w)))
    = [GetPendingShields networkName getMaxTimestampForValidation 100].
Proof.
  intros Hf.
  exists (pendingShieldsOf endTimestamp limit (rowsOf networkName w)).
  split.
  { unfold getPendingShields. unfold_js. rewrite Hf. reflexivity. }
  split; [apply pendingShieldsOf_eligible|].
  split; [rewrite pendingShieldsOf_length; lia|].
  split; [apply pendingShieldsOf_length|].
  split; [apply pendingShieldsOf_sorted|].
  split; [intros ->; apply take_nil|].
  apply validateNextQueuedShieldBatch_query.
Qed.




Lemma runQueueShieldsPoller_S fuel w :
  runQueueShieldsPoller (S fuel) w =
  match forEachInSeries queueNewShields NETWORK_NAMES w with
  | (Ok _, w1) =>
      runQueueShieldsPoller fuel
        (setTrace (trace w1 ++ [Delay queuePollerDelay]) w1)
  | (Throw e, w1) => (Throw e, w1)
  end.
Proof. reflexivity. Qed.






End Properties.

(** ** The shield queue on the test of the repository *)

(** The scenario of the shield-queue-database test: nothing is pending in
    an empty queue; after a shield of now and a shield of ten days ago are
    inserted, the rows pending at seven days ago are exactly the older one,
    [Pending] and never validated. *)
Example shield_queue_database_test :
  let now := 1700000000000 in
  let tenDaysAgo := now - 10 * 24 * 60 * 60 * 1000 in
  let sevenDaysAgo := now - 7 * 24 * 60 * 60 * 1000 in
  let pendingShield1 := ShieldData.mk "0x1234" "0x5678" "0x0a" now 1 in
  let pendingShield2 := ShieldData.mk "0x9876" "0x5432" "0x0b" tenDaysAgo 1 in
  let run {A} (m : M A) (w : World) := m w in
  fst (run (getPendingShields (faults := Fixture.noFaults)
              Fixture.Ethereum now 100) Fixture.emptyWorld) = Ok [] /\
  fst (run (bind (insertPendingShield (faults := Fixture.noFaults)
                    Fixture.Ethereum pendingShield1) (fun _ =>
            bind (insertPendingShield (faults := Fixture.noFaults)
                    Fixture.Ethereum pendingShield2) (fun _ =>
            getPendingShields (faults := Fixture.noFaults)
              Fixture.Ethereum sevenDaysAgo 100)))
         Fixture.emptyWorld)
  = Ok [ShieldQueueDBItem.mk "0x9876" "0x5432" "0x0b" tenDaysAgo Pending None].
Proof. split; vm_compute; reflexivity. Qed.

(** ** The claims on the fixture *)

(** C3.  With both overrides set (queue 60 000 ms, validate 1 000 ms) the
    validation poller sleeps 60 000 ms after its iteration, and with only
    the validate override set it sleeps the default 30 000 ms: the delay is
    computed from the override of the queue-shields poller, and
    [validateShieldsOverrideDelayMsec] is not read. *)
Theorem validate_poller_sleeps_queue_override :
  List.filter isDelay
    (callsSince Fixture.world
       (snd (runValidateQueuedShieldsPoller
               (environment := Fixture.environment) (observer := Fixture.observer)
               (signer := Fixture.signer) (faults := Fixture.noFaults)
               (provider := Fixture.provider Fixture.bothOverrides)
               1 Fixture.world)))
  = [Delay 60000] /\
  List.filter isDelay
    (callsSince Fixture.world
       (snd (runValidateQueuedShieldsPoller
               (environment := Fixture.environment) (observer := Fixture.observer)
               (signer := Fixture.signer) (faults := Fixture.noFaults)
               (provider := Fixture.provider Fixture.validateOverrideOnly)
               1 Fixture.world)))
  = [Delay 30000].
Proof. split; vm_compute; reflexivity. Qed.


(** C5 on the fixture, with limit 2. *)
Lemma getPendingShields_eligible_capped_sorted_witness :
  exists rows,
    fst (getPendingShields (faults := Fixture.noFaults)
           Fixture.Ethereum Fixture.cutoff 2 Fixture.world) = Ok rows /\
    (length rows <= 2)%nat /\
    StronglySorted byTimestamp rows.
Proof.
  destruct (getPendingShields_eligible_capped_sorted
              (environment := Fixture.environment) (observer := Fixture.observer)
              (signer := Fixture.signer) (faults := Fixture.noFaults)
              (provider := Fixture.provider Fixture.bothOverrides)
              Fixture.Ethereum Fixture.cutoff 2 Fixture.world eq_refl)
    as (rows & Hrows & _ & Hlen & _ & Hsorted & _).
  exists rows. repeat split; assumption.
Defined.

(** C6 on the fixture: the receipt of [rowTooNew] is later than the cutoff. *)
Lemma validateShield_too_new_witness :
  List.filter consultsPolicyGate
    (callsSince Fixture.world
       (snd (validateShield
               (observer := Fixture.observer) (signer := Fixture.signer)
               (faults := Fixture.noFaults)
               (provider := Fixture.provider Fixture.bothOverrides)
               Fixture.Ethereum Fixture.rowTooNew Fixture.cutoff Fixture.world)))
  = [] /\
  shieldQueue
    (snd (validateShield
            (observer := Fixture.observer) (signer := Fixture.signer)
            (faults := Fixture.noFaults)
            (provider := Fixture.provider Fixture.bothOverrides)
            Fixture.Ethereum Fixture.rowTooNew Fixture.cutoff Fixture.world))
  = shieldQueue Fixture.world.
Proof.
  destruct (validateShield_too_new
              (observer := Fixture.observer) (signer := Fixture.signer)
              (faults := Fixture.noFaults)
              (provider := Fixture.provider Fixture.bothOverrides)
              Fixture.Ethereum Fixture.rowTooNew Fixture.cutoff Fixture.world
              Fixture.receiptTooNew 9500000 eq_refl eq_refl eq_refl)
    as (_ & Hqueue & _ & _ & _ & Hgate & _).
  split; assumption.
Defined.

(** C7 on the fixture: the scan starts at the stored block 120 and the
    cursor moves to 135, the block of the last of the three shields. *)
Lemma queueNewShields_cursor_witness :
  List.filter isObserverScan
    (callsSince Fixture.world
       (snd (queueNewShields
               (environment := Fixture.environment) (observer := Fixture.observer)
               (faults := Fixture.insertFault)
               Fixture.Ethereum Fixture.world)))
  = [GetNewShieldsFromWallet Fixture.Ethereum 120] /\
  statusStore
    (snd (queueNewShields
            (environment := Fixture.environment) (observer := Fixture.observer)
            (faults := Fixture.insertFault)
            Fixture.Ethereum Fixture.world))
  = <[Fixture.Ethereum := {| latestBlockScanned := 135 |}]>
      (statusStore Fixture.world).
Proof.
  destruct (queueNewShields_cursor
              (environment := Fixture.environment) (observer := Fixture.observer)
              (faults := Fixture.insertFault)
              Fixture.Ethereum Fixture.world
              [Fixture.shield1; Fixture.shield2; Fixture.shield3]
              eq_refl eq_refl)
    as (_ & Hscan & _ & _ & Hwrite).
  split; [exact Hscan|].
  apply (Hwrite Fixture.shield3 eq_refl eq_refl).
  intros current Hcurrent. vm_compute in Hcurrent.
  injection Hcurrent as <-. vm_compute. discriminate.
Defined.


(** C9 on the fixture: the gate is called for the row of the excluded
    sender, whose receipt spells the address in upper case. *)
Lemma policy_gate_receives_lowercase_witness :
  hasUpperCase "0xde709f2102306220921060314715629080e2fb77" = false /\
  exists receipt,
    transactionReceipt (ChainObserver := Fixture.observer)
      Fixture.Ethereum "0xa2" = Ok receipt /\
    "0xde709f2102306220921060314715629080e2fb77"%string
    = toLowerCase (TransactionReceipt.from receipt).
Proof.
  apply (policy_gate_receives_lowercase
           (environment := Fixture.environment) (observer := Fixture.observer)
           (signer := Fixture.signer) (faults := Fixture.noFaults)
           (provider := Fixture.provider Fixture.bothOverrides)
           1 Fixture.world Fixture.Ethereum "0xa2"
           "0xde709f2102306220921060314715629080e2fb77" 102).
  vm_compute. do 4 right. left. reflexivity.
Defined.

(** C10 on the fixture, which is not a list provider. *)
Lemma not_a_list_provider_no_signature_no_request_witness :
  removeTransactProof
    (environment := Fixture.environment) (signer := Fixture.signer)
    (remoteNode := Fixture.remoteNode)
    "http://localhost:8080" Fixture.Ethereum "V2_PoseidonMerkle" "00"
    ["0xb1"%string] "0x00" Fixture.world
  = (Ok tt, Fixture.world) /\
  snd (submitValidatedTxidAndMerkleroot
         (environment := Fixture.environment) (signer := Fixture.signer)
         (remoteNode := Fixture.remoteNode)
         "http://localhost:8080" Fixture.Ethereum "V2_PoseidonMerkle" 3 "0x0f"
         Fixture.world)
  = setTrace (trace Fixture.world ++ [GetListPublicKey]) Fixture.world.
Proof.
  destruct (not_a_list_provider_no_signature_no_request
              (environment := Fixture.environment) (signer := Fixture.signer)
              (remoteNode := Fixture.remoteNode)
              "http://localhost:8080" Fixture.Ethereum "V2_PoseidonMerkle" "00"
              ["0xb1"%string] "0x00" 3 "0x0f" Fixture.world eq_refl)
    as (Hremoved & Hsubmitted & _).
  split; assumption.
Defined.

(** C10, where it fails: a process that is not a list provider and holds no
    key.  [submitValidatedTxidAndMerkleroot] awaits the look-up of the public
    key before it tests [isListProvider], so the call does not return: it
    throws the error of the look-up. *)
Lemma submitValidatedTxidAndMerkleroot_throws_before_the_guard :
  isListProvider (Environment := Fixture.environment) = false /\
  fst (submitValidatedTxidAndMerkleroot
         (environment := Fixture.environment) (signer := Scenario.keylessSigner)
         (remoteNode := Fixture.remoteNode)
         "http://localhost:8080" Fixture.Ethereum "V2_PoseidonMerkle" 3 "0x0f"
         Fixture.world)
  = Throw (Error "no key").
Proof. split; reflexivity. Qed.

(** * More of the code *)

Section Extras.

Context {environment : Environment} {observer : ChainObserver}
        {signer : Signer} {remoteNode : RemoteNode} {faults : Faults}
        {provider : ListProvider}.

Local Open Scope js_scope.

Create HintDb run.
#[local] Hint Unfold
  getNewShieldsFromWallet getTransactionReceipt
  getTimestampFromTransactionReceipt shouldAllowShield getListPublicKey
  signBlockedShield signRemoveProof signValidatedTxidMerkleroot axiosPost
  getStatus saveStatus insertPendingShield getPendingShields
  updateShieldStatus queueUnsignedPOIShieldEvent addBlockedShield
  postRequest queueShieldSafe validateShield
  tryCatch bind ret throw ask service emit dbg delay
  modifyWorld getWorld liftResult
  setTrace setShieldQueue setStatusStore setPoiEventQueue setBlockedShields
  : run.

(** Running a computation without loops on a symbolic world. *)
Ltac run_js := repeat (autounfold with run; simpl).
Ltac run_cases := run_js; repeat (case_match; simplify_eq; simpl).

(** ** Composing [OnlyCalls] *)

Lemma OnlyCalls_ret {A} P (a : A) : OnlyCalls P (ret a).
Proof. intros w. exists []. simpl. rewrite app_nil_r. split; constructor. Qed.

Lemma OnlyCalls_throw {A} P e : OnlyCalls P (throw (A := A) e).
Proof. intros w. exists []. simpl. rewrite app_nil_r. split; constructor. Qed.

Lemma OnlyCalls_liftResult {A} P (r : Result A) : OnlyCalls P (liftResult r).
Proof. intros w. exists []. simpl. rewrite app_nil_r. split; constructor. Qed.

Lemma OnlyCalls_emit P c : P c -> OnlyCalls P (emit c).
Proof. intros Hc w. exists [c]. split; [reflexivity|]. repeat constructor. exact Hc. Qed.

Lemma OnlyCalls_bind {A B} P (m : M A) (k : A -> M B) :
  OnlyCalls P m -> (forall a, OnlyCalls P (k a)) -> OnlyCalls P (bind m k).
Proof.
  intros Hm Hk w. unfold bind. destruct (Hm w) as (new & Ht & Hp).
  destruct (m w) as [[a|e] w1]; simpl in *.
  - destruct (Hk a w1) as (new' & Ht' & Hp').
    exists (new ++ new'). rewrite Ht', Ht, app_assoc. split; [reflexivity|].
    apply Forall_app. split; assumption.
  - exists new. split; assumption.
Qed.

Lemma OnlyCalls_tryCatch {A} P (body : M A) handler :
  OnlyCalls P body -> (forall e, OnlyCalls P (handler e)) ->
  OnlyCalls P (tryCatch body handler).
Proof.
  intros Hm Hk w. unfold tryCatch. destruct (Hm w) as (new & Ht & Hp).
  destruct (body w) as [[a|e] w1]; simpl in *.
  - exists new. split; assumption.
  - destruct (Hk e w1) as (new' & Ht' & Hp').
    exists (new ++ new'). rewrite Ht', Ht, app_assoc. split; [reflexivity|].
    apply Forall_app. split; assumption.
Qed.

Lemma OnlyCalls_promiseAll {A} P (f : A -> M unit) xs :
  (forall x, OnlyCalls P (f x)) -> OnlyCalls P (promiseAll (map f xs)).
Proof.
  intros Hf. induction xs as [|x xs IH]; intros w; simpl.
  - exists []. rewrite app_nil_r. split; constructor.
  - destruct (Hf x w) as (new & Ht & Hp).
    destruct (f x w) as [r w1]; simpl in *.
    destruct (IH w1) as (new' & Ht' & Hp').
    exists (new ++ new').
    split; [|apply Forall_app; split; assumption].
    destruct r; simpl; rewrite Ht', Ht, app_assoc; reflexivity.
Qed.

Lemma OnlyCalls_forEachInSeries {A} P (f : A -> M unit) xs :
  (forall x, OnlyCalls P (f x)) -> OnlyCalls P (forEachInSeries f xs).
Proof.
  intros Hf. induction xs as [|x xs IH]; simpl.
  - apply OnlyCalls_ret.
  - apply OnlyCalls_bind; [apply Hf|intros _; exact IH].
Qed.

Lemma OnlyCalls_weaken {A} (P Q : Call -> Prop) (m : M A) :
  (forall c, P c -> Q c) -> OnlyCalls P m -> OnlyCalls Q m.
Proof.
  intros Hpq Hm w. destruct (Hm w) as (new & Ht & Hp). exists new.
  split; [exact Ht|]. eapply Forall_impl; [exact Hp|exact Hpq].
Qed.

Lemma OnlyCalls_since {A} P (m : M A) w :
  OnlyCalls P m -> Forall P (callsSince w (snd (m w))).
Proof.
  intros Hm. destruct (Hm w) as (new & Ht & Hp).
  unfold callsSince. rewrite Ht, drop_app_length. exact Hp.
Qed.

(** ** Composing [Keeps] *)

Lemma Keeps_bind {A B} R `{!PreOrder R} (m : M A) (k : A -> M B) :
  Keeps R m -> (forall a, Keeps R (k a)) -> Keeps R (bind m k).
Proof.
  intros Hm Hk w. unfold bind. specialize (Hm w).
  destruct (m w) as [[a|e] w1]; simpl in *; [|exact Hm].
  etransitivity; [exact Hm|apply Hk].
Qed.

Lemma Keeps_tryCatch {A} R `{!PreOrder R} (body : M A) handler :
  Keeps R body -> (forall e, Keeps R (handler e)) -> Keeps R (tryCatch body handler).
Proof.
  intros Hm Hk w. unfold tryCatch. specialize (Hm w).
  destruct (body w) as [[a|e] w1]; simpl in *; [exact Hm|].
  etransitivity; [exact Hm|apply Hk].
Qed.

Lemma Keeps_ret {A} R `{!PreOrder R} (a : A) : Keeps R (ret a).
Proof. intros w. reflexivity. Qed.

Lemma Keeps_throw {A} R `{!PreOrder R} e : Keeps R (throw (A := A) e).
Proof. intros w. reflexivity. Qed.

Lemma Keeps_promiseAll {A} R `{!PreOrder R} (f : A -> M unit) xs :
  (forall x, Keeps R (f x)) -> Keeps R (promiseAll (map f xs)).
Proof.
  intros Hf. induction xs as [|x xs IH]; intros w; simpl; [reflexivity|].
  specialize (Hf x w). destruct (f x w) as [r w1]; simpl in *.
  destruct r; simpl; (etransitivity; [exact Hf|apply IH]).
Qed.

Lemma Keeps_forEachInSeries {A} R `{!PreOrder R} (f : A -> M unit) xs :
  (forall x, Keeps R (f x)) -> Keeps R (forEachInSeries f xs).
Proof.
  intros Hf. induction xs as [|x xs IH]; simpl.
  - apply Keeps_ret; assumption.
  - apply Keeps_bind; [assumption|apply Hf|intros _; exact IH].
Qed.

#[local] Instance sameStatusStore_preorder : PreOrder sameStatusStore.
Proof. split; unfold sameStatusStore; [intros w; reflexivity|intros x y z; congruence]. Qed.

#[local] Instance sameOutputs_preorder : PreOrder sameOutputs.
Proof.
  split; unfold sameOutputs; [intros w; split; reflexivity|].
  intros x y z [] []. split; congruence.
Qed.

#[local] Instance sameStores_preorder : PreOrder sameStores.
Proof.
  split; unfold sameStores; [intros w; repeat split; reflexivity|].
  intros x y z (?&?&?&?) (?&?&?&?). repeat split; congruence.
Qed.

#[local] Instance sameKeys_preorder : PreOrder sameKeys.
Proof.
  split; unfold sameKeys; [intros w n; reflexivity|].
  intros x y z Hxy Hyz n. rewrite Hyz. apply Hxy.
Qed.

#[local] Instance rowsKept_preorder : PreOrder rowsKept.
Proof.
  split; unfold rowsKept.
  - intros w n. exists []. rewrite app_nil_r. reflexivity.
  - intros x y z Hxy Hyz n. destruct (Hxy n) as [e1 E1]. destruct (Hyz n) as [e2 E2].
    exists (e1 ++ e2). rewrite E2, E1, app_assoc. reflexivity.
Qed.

(** ** Deciding what is called, piece by piece *)

Ltac trace_grows :=
  first [ rewrite <- ?app_assoc; simpl; reflexivity
        | symmetry; apply app_nil_r ].

(** A computation without loops, by running it. *)
Ltac calls_atom solve_call :=
  intros ?w; run_cases;
  eexists;
  (split; [trace_grows | repeat (constructor; [cbv beta; solve_call|]); constructor]).

Ltac calls_with solve_call :=
  cbv beta;
  lazymatch goal with
  | |- OnlyCalls _ (bind _ _) =>
      apply OnlyCalls_bind; [calls_with solve_call | intros ?; calls_with solve_call]
  | |- OnlyCalls _ (tryCatch _ _) =>
      apply OnlyCalls_tryCatch; [calls_with solve_call | intros ?; calls_with solve_call]
  | |- OnlyCalls _ (promiseAll (map _ _)) =>
      apply OnlyCalls_promiseAll; intros ?; calls_with solve_call
  | |- OnlyCalls _ (forEachInSeries _ _) =>
      apply OnlyCalls_forEachInSeries; intros ?; calls_with solve_call
  | |- OnlyCalls _ (ret _) => apply OnlyCalls_ret
  | |- OnlyCalls _ (throw _) => apply OnlyCalls_throw
  | |- OnlyCalls _ (if ?b then _ else _) => destruct b; calls_with solve_call
  | |- OnlyCalls _ (match ?x with _ => _ end) => destruct x; calls_with solve_call
  | |- OnlyCalls _ (let _ := _ in _) => cbv zeta; calls_with solve_call
  | |- OnlyCalls _ (queueNewShields _) =>
      unfold queueNewShields; calls_with solve_call
  | |- OnlyCalls _ (validateNextQueuedShieldBatch _) =>
      unfold validateNextQueuedShieldBatch; calls_with solve_call
  | |- OnlyCalls _ _ => first [assumption | calls_atom solve_call]
  end.

Ltac keeps_atom solve_kept :=
  intros ?w; run_cases; solve_kept.

Ltac keeps_with solve_kept :=
  cbv beta;
  lazymatch goal with
  | |- Keeps _ (bind _ _) =>
      apply Keeps_bind; [apply _ | keeps_with solve_kept | intros ?; keeps_with solve_kept]
  | |- Keeps _ (tryCatch _ _) =>
      apply Keeps_tryCatch; [apply _ | keeps_with solve_kept | intros ?; keeps_with solve_kept]
  | |- Keeps _ (promiseAll (map _ _)) =>
      apply Keeps_promiseAll; [apply _ | intros ?; keeps_with solve_kept]
  | |- Keeps _ (forEachInSeries _ _) =>
      apply Keeps_forEachInSeries; [apply _ | intros ?; keeps_with solve_kept]
  | |- Keeps _ (ret _) => apply Keeps_ret; apply _
  | |- Keeps _ (throw _) => apply Keeps_throw; apply _
  | |- Keeps _ (if ?b then _ else _) => destruct b; keeps_with solve_kept
  | |- Keeps _ (match ?x with _ => _ end) => destruct x; keeps_with solve_kept
  | |- Keeps _ (let _ := _ in _) => cbv zeta; keeps_with solve_kept
  | |- Keeps _ (queueNewShields _) =>
      unfold queueNewShields; keeps_with solve_kept
  | |- Keeps _ (validateNextQueuedShieldBatch _) =>
      unfold validateNextQueuedShieldBatch; keeps_with solve_kept
  | |- Keeps _ _ => first [assumption | keeps_atom solve_kept]
  end.

Ltac by_kind := idtac; reflexivity.

(** ** What the two pollers call *)

Lemma queueNewShields_calls_only networkName :
  OnlyCalls (fun c => isQueuePollerCall c = true) (queueNewShields networkName).
Proof. calls_with by_kind. Qed.

Lemma runQueueShieldsPoller_calls_only fuel :
  OnlyCalls (fun c => isQueuePollerCall c = true) (runQueueShieldsPoller fuel).
Proof. induction fuel as [|fuel IH]; simpl; calls_with by_kind. Qed.

Lemma validateNextQueuedShieldBatch_calls_only networkName :
  OnlyCalls (fun c => isValidatePollerCall c = true)
            (validateNextQueuedShieldBatch networkName).
Proof. calls_with by_kind. Qed.

Lemma runValidateQueuedShieldsPoller_calls_only fuel :
  OnlyCalls (fun c => isValidatePollerCall c = true)
            (runValidateQueuedShieldsPoller fuel).
Proof. induction fuel as [|fuel IH]; simpl; calls_with by_kind. Qed.

(** ** What the two pollers keep *)

Lemma key_setStatus st (r : ShieldQueueRow) :
  ShieldQueueDBItem.key (ShieldQueueDBItem.setStatus st r) = ShieldQueueDBItem.key r.
Proof. reflexivity. Qed.

Lemma keys_withStatus k st rows :
  map ShieldQueueDBItem.key (withStatus k st rows) = map ShieldQueueDBItem.key rows.
Proof.
  unfold withStatus. rewrite map_map. apply map_ext. intros r.
  destruct (hasKey k r); reflexivity.
Qed.

Lemma keys_after_update networkName k st (q : gmap string (list ShieldQueueRow)) n :
  map ShieldQueueDBItem.key
    (default [] (<[networkName := withStatus k st (default [] (q !! networkName))]> q
                 !! n))
  = map ShieldQueueDBItem.key (default [] (q !! n)).
Proof.
  destruct (decide (networkName = n)) as [->|Hne].
  - rewrite lookup_insert_eq. simpl. apply keys_withStatus.
  - rewrite lookup_insert_ne by exact Hne. reflexivity.
Qed.

Lemma rows_after_insert networkName r (q : gmap string (list ShieldQueueRow)) n :
  exists extra,
    default [] (<[networkName := default [] (q !! networkName) ++ [r]]> q !! n)
    = default [] (q !! n) ++ extra.
Proof.
  destruct (decide (networkName = n)) as [->|Hne].
  - rewrite lookup_insert_eq. simpl. eexists. reflexivity.
  - rewrite lookup_insert_ne by exact Hne. exists []. rewrite app_nil_r. reflexivity.
Qed.

Ltac by_stores :=
  idtac; unfold sameStatusStore, sameOutputs, sameStores; simpl;
  repeat split; reflexivity.

Ltac by_keys :=
  idtac; intros ?n; unfold rowsOf; simpl;
  first [reflexivity | apply keys_after_update].

Ltac by_rows :=
  idtac; intros ?n; unfold rowsOf; simpl;
  first [exists []; rewrite app_nil_r; reflexivity | apply rows_after_insert].

Lemma runValidateQueuedShieldsPoller_keeps_status fuel :
  Keeps sameStatusStore (runValidateQueuedShieldsPoller fuel).
Proof. induction fuel as [|fuel IH]; simpl; keeps_with by_stores. Qed.

Lemma runValidateQueuedShieldsPoller_keeps_keys fuel :
  Keeps sameKeys (runValidateQueuedShieldsPoller fuel).
Proof. induction fuel as [|fuel IH]; simpl; keeps_with by_keys. Qed.

Lemma runQueueShieldsPoller_keeps_outputs fuel :
  Keeps sameOutputs (runQueueShieldsPoller fuel).
Proof. induction fuel as [|fuel IH]; simpl; keeps_with by_stores. Qed.

Lemma runQueueShieldsPoller_keeps_rows fuel :
  Keeps rowsKept (runQueueShieldsPoller fuel).
Proof. induction fuel as [|fuel IH]; simpl; keeps_with by_rows. Qed.

(** X13.  Whatever happens, the validation poller does not write the
    status store, neither adds a row to the shield queue nor removes one,
    and makes no call outside its own kind: it never inserts, scans the chain,
    saves the cursor or posts to a node, and it never asks the shield queue
    to put a row back to [Pending]. *)
Theorem validation_poller_stays_in_its_lane fuel w :
  statusStore (snd (runValidateQueuedShieldsPoller fuel w)) = statusStore w /\
  (forall networkName,
     map ShieldQueueDBItem.key
       (rowsOf networkName (snd (runValidateQueuedShieldsPoller fuel w)))
     = map ShieldQueueDBItem.key (rowsOf networkName w)) /\
  Forall (fun c => isValidatePollerCall c = true)
    (callsSince w (snd (runValidateQueuedShieldsPoller fuel w))).
Proof.
  split; [apply runValidateQueuedShieldsPoller_keeps_status|].
  split; [apply runValidateQueuedShieldsPoller_keeps_keys|].
  apply OnlyCalls_since, runValidateQueuedShieldsPoller_calls_only.
Qed.

(** X14.  Whatever happens, the queue-shields poller leaves the event
    queue and the blocked shields alone, only appends to the shield queue
    (the rows there were are there, unchanged), and makes no call outside its
    own kind: it never consults the policy gate, fetches a receipt, signs or
    changes the status of a row. *)
Theorem queue_poller_stays_in_its_lane fuel w :
  poiEventQueue (snd (runQueueShieldsPoller fuel w)) = poiEventQueue w /\
  blockedShields (snd (runQueueShieldsPoller fuel w)) = blockedShields w /\
  (forall networkName, exists extra,
     rowsOf networkName (snd (runQueueShieldsPoller fuel w))
     = rowsOf networkName w ++ extra) /\
  Forall (fun c => isQueuePollerCall c = true)
    (callsSince w (snd (runQueueShieldsPoller fuel w))).
Proof.
  destruct (runQueueShieldsPoller_keeps_outputs fuel w) as [Hq Hb].
  split; [exact Hq|]. split; [exact Hb|].
  split; [apply runQueueShieldsPoller_keeps_rows|].
  apply OnlyCalls_since, runQueueShieldsPoller_calls_only.
Qed.

(** ** Requests to a remote node *)

(** X1.  [postRequest] posts once and touches no store.  It returns the
    data of the response; an [AxiosError] is logged with the URL and
    replaced by a plain [Error] whose message is the axios message, a colon
    and the response data ("undefined" when there is no response); any other
    error passes through.  So no [AxiosError] leaves [postRequest]. *)
Theorem postRequest_throws_plain_errors url params w :
  let r := fst (postRequest url params w) in
  let w' := snd (postRequest url params w) in
  List.filter isHttpRequest (callsSince w w') = [AxiosPost url params] /\
  sameStores w w' /\
  match postResponse url params with
  | Ok data => r = Ok data /\ callsSince w w' = [AxiosPost url params]
  | Throw (AxiosError msg data) =>
      let errMessage := (msg ++ ": " ++ showResponseData data)%string in
      r = Throw (Error errMessage) /\
      callsSince w w' =
        [AxiosPost url params; Dbg ("ERROR " ++ url ++ " - " ++ errMessage)%string]
  | Throw (Error msg) =>
      r = Throw (Error msg) /\ callsSince w w' = [AxiosPost url params]
  end /\
  match r with
  | Throw (AxiosError _ _) => False
  | _ => True
  end.
Proof.
  unfold callsSince, sameStores. run_js.
  destruct (postResponse url params) as [data|[msg|msg data]]; simpl;
    rewrite <- ?app_assoc, drop_app_length; simpl; repeat split.
Qed.

(** X2.  As a list provider, [removeTransactProof] asks the signer first
    and posts second.  When the signer throws, that error is the outcome and
    nothing is posted.  Otherwise there is exactly one post, to
    [nodeURL/remove-transact-proof/<chain type>/<chain id>], whose body
    carries the arguments and the signature the signer gave; the outcome is
    that of the post. *)
Theorem removeTransactProof_signs_then_posts
  nodeURL networkName txidVersion key blindedCommitmentsOut
  railgunTxidIfHasUnshield w :
  isListProvider = true ->
  let run :=
    removeTransactProof nodeURL networkName txidVersion key
      blindedCommitmentsOut railgunTxidIfHasUnshield w in
  let url := routeURL nodeURL "remove-transact-proof" networkName in
  let asked := SignRemoveProof blindedCommitmentsOut railgunTxidIfHasUnshield in
  match removeProofSignature blindedCommitmentsOut railgunTxidIfHasUnshield with
  | Throw e => run = (Throw e, setTrace (trace w ++ [asked]) w)
  | Ok signature =>
      let body :=
        RemoveTransactProofBody txidVersion key blindedCommitmentsOut
          railgunTxidIfHasUnshield signature in
      List.filter (fun c => producesSignature c || isHttpRequest c)
        (callsSince w (snd run))
      = [asked; AxiosPost url body] /\
      fst run =
        match fst (postRequest url body w) with
        | Ok _ => Ok tt
        | Throw e => Throw e
        end
  end.
Proof.
  intros Hlp run url asked. subst run url asked.
  unfold removeTransactProof, routeURL, callsSince. rewrite Hlp. run_js.
  destruct (removeProofSignature _ _) as [signature|e]; simpl.
  - destruct (postResponse _ _) as [data|[msg|msg data]]; simpl;
      rewrite <- ?app_assoc, drop_app_length; simpl; split; reflexivity.
  - reflexivity.
Qed.

(** X3.  As a list provider, [submitValidatedTxidAndMerkleroot] looks up
    the list's public key, then asks the signer, then posts.  When the
    look-up or the signer throws, that error is the outcome and nothing is
    posted.  Otherwise there is exactly one post, to
    [nodeURL/submit-validated-txid/<chain type>/<chain id>], and the
    [listKey] of its body is the public key just looked up. *)
Theorem submitValidatedTxidAndMerkleroot_signs_then_posts
  nodeURL networkName txidVersion txidIndex merkleroot w :
  isListProvider = true ->
  let run :=
    submitValidatedTxidAndMerkleroot nodeURL networkName txidVersion
      txidIndex merkleroot w in
  let url := routeURL nodeURL "submit-validated-txid" networkName in
  let asked := SignValidatedTxidMerkleroot txidIndex merkleroot in
  match listPublicKey with
  | Throw e => run = (Throw e, setTrace (trace w ++ [GetListPublicKey]) w)
  | Ok key =>
      match validatedTxidMerklerootSignature txidIndex merkleroot with
      | Throw e =>
          run = (Throw e, setTrace (trace w ++ [GetListPublicKey; asked]) w)
      | Ok signature =>
          let body :=
            SubmitValidatedTxidBody txidVersion txidIndex merkleroot
              signature key in
          callsSince w (snd run)
          = GetListPublicKey :: asked :: callsSince w (snd (postRequest url body w)) /\
          List.filter isHttpRequest (callsSince w (snd run))
          = [AxiosPost url body] /\
          fst run =
            match fst (postRequest url body w) with
            | Ok _ => Ok tt
            | Throw e => Throw e
            end
      end
  end.
Proof.
  intros Hlp run url asked. subst run url asked.
  unfold submitValidatedTxidAndMerkleroot, routeURL, callsSince. rewrite Hlp.
  run_js.
  destruct listPublicKey as [key|e]; simpl; [|reflexivity].
  destruct (validatedTxidMerklerootSignature _ _) as [signature|e]; simpl.
  - destruct (postResponse _ _) as [data|[msg|msg data]]; simpl;
      rewrite <- ?app_assoc, !drop_app_length; simpl; repeat split.
  - rewrite <- app_assoc. reflexivity.
Qed.

(** ** The queue-shields pass and its poller *)

(** The pass up to the inserts. *)
Lemma queueNewShields_head networkName w :
  queueNewShields networkName w =
  match fault (GetStatus networkName) with
  | Some e => (Throw e, setTrace (trace w ++ [GetStatus networkName]) w)
  | None =>
      let startingBlock := startingBlockOf networkName w in
      match newShieldsFromWallet networkName startingBlock with
      | Throw e =>
          (Throw e,
           setTrace
             (trace w ++
              [GetStatus networkName;
               GetNewShieldsFromWallet networkName startingBlock]) w)
      | Ok newShields =>
          (promiseAll (map (fun shieldData => queueShieldSafe networkName shieldData)
                           newShields) ;;
           if (0 <? length newShields)%nat then
             match newShields !! (length newShields - 1)%nat with
             | Some lastShieldScanned =>
                 saveStatus networkName (ShieldData.blockNumber lastShieldScanned)
             | None => throw (Error "Cannot read properties of undefined")
             end
           else ret tt)
            (setTrace
               (trace w ++
                [GetStatus networkName;
                 GetNewShieldsFromWallet networkName startingBlock;
                 Dbg ("[" ++ networkName ++ "] Attempting to insert "
                      ++ showZ (Z.of_nat (length newShields))
                      ++ " pending shields")%string]) w)
      end
  end.
Proof.
  unfold queueNewShields, getStatus, getNewShieldsFromWallet.
  unfold bind at 1. unfold bind at 1. unfold service at 1. unfold bind at 1.
  unfold emit at 1. unfold modifyWorld at 1.
  destruct (fault (GetStatus networkName)) as [e|]; [reflexivity|].
  unfold ret at 1. unfold bind at 1. unfold getWorld at 1. unfold ret at 1.
  simpl statusStore. fold (startingBlockOf networkName w). cbv zeta.
  unfold bind at 1. unfold ask at 1. unfold bind at 1. unfold emit at 1.
  unfold modifyWorld at 1. unfold liftResult at 1.
  destruct (newShieldsFromWallet networkName (startingBlockOf networkName w))
    as [newShields|e].
  - unfold bind at 1. unfold dbg at 1. unfold emit at 1. unfold modifyWorld at 1.
    unfold setTrace. simpl. rewrite <- !app_assoc. reflexivity.
  - unfold setTrace. simpl. rewrite <- !app_assoc. reflexivity.
Qed.

(** X5.  A queue-shields pass has no handler of its own.  When the status
    store cannot be read, the pass throws that error after that one call;
    when the chain observer throws, the pass throws that error after the two
    calls.  In both cases nothing is inserted, the cursor is not written and
    no store changes. *)
Theorem queueNewShields_scan_failure networkName w :
  match fault (GetStatus networkName) with
  | Some e =>
      queueNewShields networkName w
      = (Throw e, setTrace (trace w ++ [GetStatus networkName]) w)
  | None =>
      match newShieldsFromWallet networkName (startingBlockOf networkName w) with
      | Throw e =>
          queueNewShields networkName w
          = (Throw e,
             setTrace
               (trace w ++
                [GetStatus networkName;
                 GetNewShieldsFromWallet networkName
                   (startingBlockOf networkName w)]) w)
      | Ok _ => True
      end
  end.
Proof.
  rewrite queueNewShields_head.
  destruct (fault (GetStatus networkName)); [reflexivity|]. cbv zeta.
  destruct (newShieldsFromWallet _ _); [exact I|reflexivity].
Qed.

(** X7.  When the observer has nothing new, the pass is the three calls
    (status, scan, the announcement of 0 shields) and nothing else: no insert,
    no cursor write, every store as it was. *)
Theorem queueNewShields_nothing_new networkName w :
  fault (GetStatus networkName) = None ->
  newShieldsFromWallet networkName (startingBlockOf networkName w) = Ok [] ->
  queueNewShields networkName w =
  (Ok tt,
   setTrace
     (trace w ++
      [GetStatus networkName;
       GetNewShieldsFromWallet networkName (startingBlockOf networkName w);
       Dbg ("[" ++ networkName ++ "] Attempting to insert 0 pending shields")%string])
     w).
Proof.
  intros Hs Ho. rewrite queueNewShields_head, Hs. cbv zeta. rewrite Ho.
  reflexivity.
Qed.

Lemma queueNewShields_no_delay networkName :
  OnlyCalls (fun c => isDelay c = false) (queueNewShields networkName).
Proof. calls_with by_kind. Qed.

(** X4.  The queue-shields poller sleeps after every iteration that
    completes, each time for [queueShieldsOverrideDelayMsec] or 20 minutes
    when that is not set.  When it returns it has completed all its
    iterations; when an iteration throws, the poller ends there, with fewer
    sleeps than iterations asked. *)
Theorem runQueueShieldsPoller_iterations fuel w :
  exists completed,
    List.filter isDelay (callsSince w (snd (runQueueShieldsPoller fuel w)))
    = repeat (Delay queuePollerDelay) completed /\
    match fst (runQueueShieldsPoller fuel w) with
    | Ok _ => completed = fuel
    | Throw _ => (completed < fuel)%nat
    end.
Proof.
  assert (Hgen : forall w, exists new completed,
    trace (snd (runQueueShieldsPoller fuel w)) = trace w ++ new /\
    List.filter isDelay new = repeat (Delay queuePollerDelay) completed /\
    match fst (runQueueShieldsPoller fuel w) with
    | Ok _ => completed = fuel
    | Throw _ => (completed < fuel)%nat
    end).
  { clear w. induction fuel as [|fuel IH]; intros w.
    - exists [], 0%nat. simpl. rewrite app_nil_r. repeat split.
    - rewrite runQueueShieldsPoller_S.
      destruct (OnlyCalls_forEachInSeries (fun c => isDelay c = false)
                  queueNewShields NETWORK_NAMES queueNewShields_no_delay w)
        as (news & Ht & Hnone).
      destruct (forEachInSeries queueNewShields NETWORK_NAMES w) as [[[]|e] w1];
        simpl in Ht.
      + destruct (IH (setTrace (trace w1 ++ [Delay queuePollerDelay]) w1))
          as (new & completed & Ht2 & Hd & Hres).
        exists (news ++ Delay queuePollerDelay :: new), (S completed).
        split; [rewrite Ht2; simpl; rewrite Ht, <- !app_assoc; reflexivity|].
        split.
        * rewrite List.filter_app, (filter_none isDelay news Hnone). simpl.
          rewrite Hd. reflexivity.
        * destruct (fst (runQueueShieldsPoller fuel _)); lia.
      + exists news, 0%nat. simpl. split; [exact Ht|].
        split; [apply filter_none, Hnone|lia]. }
  destruct (Hgen w) as (new & completed & Ht & Hd & Hres).
  exists completed. rewrite (callsSince_app _ _ _ Ht). split; assumption.
Qed.

(** X6.  When the pass of the first network throws, that is the whole
    run of the poller: no other network is visited, there is no sleep and no
    further iteration.  The outcome and the world are those of the failed
    pass. *)
Theorem runQueueShieldsPoller_stops_at_failure fuel w networkName rest e :
  NETWORK_NAMES = networkName :: rest ->
  fst (queueNewShields networkName w) = Throw e ->
  runQueueShieldsPoller (S fuel) w
  = (Throw e, snd (queueNewShields networkName w)).
Proof.
  intros Hn He. rewrite runQueueShieldsPoller_S, Hn. simpl. unfold bind.
  destruct (queueNewShields networkName w) as [r w1]. simpl in He. subst r.
  reflexivity.
Qed.

(** ** The validation pass and its poller *)

(** X8.  When the shield queue cannot be read, or when no row is
    eligible, a validation pass returns normally having made no other call
    than the query (and, on the error, the one debug line with the error's
    message): no receipt is fetched, the gate is not consulted, no store
    changes. *)
Theorem validateNextQueuedShieldBatch_nothing_to_do networkName w :
  let query := GetPendingShields networkName getMaxTimestampForValidation 100 in
  is_Some (fault query) \/
  pendingShieldsOf getMaxTimestampForValidation 100 (rowsOf networkName w) = [] ->
  validateNextQueuedShieldBatch networkName w =
  (Ok tt,
   setTrace
     (trace w ++
      query ::
      match fault query with
      | Some err =>
          [Dbg ("Error getting queued shields on " ++ networkName ++ ": "
                ++ message err)%string]
      | None => []
      end) w).
Proof.
  intros query Hcase. subst query.
  unfold validateNextQueuedShieldBatch, getPendingShields. run_js.
  destruct (fault (GetPendingShields networkName getMaxTimestampForValidation 100))
    as [err|] eqn:Hf; simpl.
  - rewrite <- app_assoc. reflexivity.
  - destruct Hcase as [[e He]|Hempty]; [discriminate He|].
    unfold rowsOf in *. simpl. rewrite Hempty. reflexivity.
Qed.

Lemma validateNextQueuedShieldBatch_asks_once networkName w :
  exists new,
    fst (validateNextQueuedShieldBatch networkName w) = Ok tt /\
    trace (snd (validateNextQueuedShieldBatch networkName w)) = trace w ++ new /\
    List.filter isPendingQuery new
    = [GetPendingShields networkName getMaxTimestampForValidation 100].
Proof.
  destruct (validateNextQueuedShieldBatch_step networkName w)
    as (new & Hok & Hstep).
  exists new. split; [exact Hok|]. split; [apply (batch_trace _ _ _ _ Hstep)|].
  rewrite <- (callsSince_app _ _ _ (batch_trace _ _ _ _ Hstep)).
  apply validateNextQueuedShieldBatch_query.
Qed.

Lemma omap_pendingQueryOf_filter l :
  omap pendingQueryOf l = omap pendingQueryOf (List.filter isPendingQuery l).
Proof.
  induction l as [|c l IH]; [reflexivity|].
  destruct c; cbn; rewrite IH; reflexivity.
Qed.

Lemma Steps_omap {A B} (step : A -> World -> World -> list Call -> Prop)
  (f : Call -> option B) (g : A -> B) :
  (forall x w w' new, step x w w' new -> omap f new = [g x]) ->
  forall xs w w' news, Steps step xs w w' news -> omap f news = map g xs.
Proof.
  intros Hs xs w w' news Hst. induction Hst as [w|x xs w w1 w2 new news Hx _ IH].
  - reflexivity.
  - rewrite omap_app, IH, (Hs _ _ _ _ Hx). reflexivity.
Qed.

(** X9.  In every iteration the validation poller queries the pending
    rows of every configured network, once each and in the configured order,
    each time with limit 100, whatever failed on the networks before. *)
Theorem runValidateQueuedShieldsPoller_visits_every_network fuel w :
  omap pendingQueryOf
    (callsSince w (snd (runValidateQueuedShieldsPoller fuel w)))
  = concat
      (repeat (map (fun networkName => (networkName, 100%nat)) NETWORK_NAMES)
              fuel).
Proof.
  assert (Hgen : forall w, exists new,
    trace (snd (runValidateQueuedShieldsPoller fuel w)) = trace w ++ new /\
    omap pendingQueryOf new =
    concat (repeat (map (fun networkName => (networkName, 100%nat)) NETWORK_NAMES)
                   fuel)).
  { clear w.
    pose (step := fun networkName (w0 w0' : World) new =>
            trace w0' = trace w0 ++ new /\
            omap pendingQueryOf new = [(networkName, 100%nat)]).
    assert (Hstep : forall x w0, exists new,
              fst (validateNextQueuedShieldBatch x w0) = Ok tt /\
              step x w0 (snd (validateNextQueuedShieldBatch x w0)) new).
    { intros x w0.
      destruct (validateNextQueuedShieldBatch_asks_once x w0)
        as (new & Hok & Ht & Hq).
      exists new. split; [exact Hok|]. split; [exact Ht|].
      rewrite omap_pendingQueryOf_filter, Hq. reflexivity. }
    assert (Htrace : forall x w0 w0' new,
              step x w0 w0' new -> trace w0' = trace w0 ++ new)
      by (intros x w0 w0' new Hx; exact (proj1 Hx)).
    assert (Hquery : forall x w0 w0' new,
              step x w0 w0' new ->
              omap pendingQueryOf new = [(x, 100%nat)])
      by (intros x w0 w0' new Hx; exact (proj2 Hx)).
    induction fuel as [|fuel IH]; intros w.
    - exists []. simpl. rewrite app_nil_r. split; reflexivity.
    - rewrite runValidateQueuedShieldsPoller_S.
      destruct (forEachInSeries_steps validateNextQueuedShieldBatch step Hstep
                  NETWORK_NAMES w)
        as (news & Hok & Hst).
      destruct (forEachInSeries validateNextQueuedShieldBatch NETWORK_NAMES w)
        as [r w1]; simpl in Hok, Hst; subst r.
      destruct (IH (setTrace (trace w1 ++ [Delay validatePollerDelay]) w1))
        as (new & Ht2 & Hq2).
      exists (news ++ Delay validatePollerDelay :: new). split.
      + rewrite Ht2. simpl.
        rewrite (Steps_trace step Htrace _ _ _ _ Hst), <- !app_assoc.
        reflexivity.
      + rewrite omap_app. cbn. rewrite Hq2.
        rewrite (Steps_omap step pendingQueryOf
                   (fun networkName => (networkName, 100%nat))
                   Hquery _ _ _ _ Hst).
        reflexivity. }
  destruct (Hgen w) as (new & Ht & Hq).
  rewrite (callsSince_app _ _ _ Ht). exact Hq.
Qed.

(** X10.  A row on which no verdict is reached (the receipt cannot be
    fetched, its timestamp cannot be derived, or the policy gate throws)
    changes no store: nothing is enqueued, blocked or updated.
    [validateShield] returns normally, and its last two calls are the debug
    line with the message of the error and the row. *)
Theorem validateShield_no_verdict networkName row endTimestamp w err :
  transactionReceipt networkName (ShieldQueueDBItem.txid row) = Throw err \/
  (exists receipt,
     transactionReceipt networkName (ShieldQueueDBItem.txid row) = Ok receipt /\
     (timestampFromTransactionReceipt networkName receipt = Throw err \/
      exists timestamp,
        timestampFromTransactionReceipt networkName receipt = Ok timestamp /\
        timestamp <= endTimestamp /\
        policy networkName (ShieldQueueDBItem.txid row)
          (toLowerCase (TransactionReceipt.from receipt)) timestamp
        = Throw err)) ->
  let w' := snd (validateShield networkName row endTimestamp w) in
  fst (validateShield networkName row endTimestamp w) = Ok tt /\
  sameStores w w' /\
  List.filter (fun c => isEventQueued c || isBlockRecorded c || isStatusUpdate c)
    (callsSince w w') = [] /\
  exists before,
    callsSince w w' = before ++ validationErrorLog networkName row err.
Proof.
  intros Hcase. unfold callsSince, sameStores, validationErrorLog. run_js.
  destruct Hcase as [Hr|(receipt & Hr & [Ht|(timestamp & Ht & Hle & Hp)])];
    rewrite Hr; simpl; [|rewrite Ht; simpl..].
  - rewrite <- !app_assoc, drop_app_length. simpl.
    repeat split. eexists [_]. reflexivity.
  - rewrite <- !app_assoc, drop_app_length. simpl.
    repeat split. eexists [_; _]. reflexivity.
  - destruct (Z.ltb_spec endTimestamp timestamp) as [Hlt|_]; [lia|]. simpl.
    rewrite Hp. simpl. rewrite <- !app_assoc, drop_app_length. simpl.
    repeat split. eexists [_; _; _]. reflexivity.
Qed.

Ltac by_gate :=
  idtac;
  first [ exact I
        | split; [apply Z.ltb_ge; assumption | eauto] ].

Lemma validateNextQueuedShieldBatch_gate batchNetwork :
  OnlyCalls gateChecked (validateNextQueuedShieldBatch batchNetwork).
Proof. calls_with by_gate. Qed.

(** X11.  In a validation pass, the timestamp handed to the policy gate
    is the one derived from the receipt of that transaction (not the one
    stored with the row), and it is never later than the cutoff the pass
    computed when it started. *)
Theorem policy_gate_receives_checked_timestamp
  batchNetwork w networkName txid fromAddress timestamp :
  In (ShouldAllowShield networkName txid fromAddress timestamp)
     (callsSince w (snd (validateNextQueuedShieldBatch batchNetwork w))) ->
  timestamp <= getMaxTimestampForValidation /\
  exists receipt,
    transactionReceipt networkName txid = Ok receipt /\
    timestampFromTransactionReceipt networkName receipt = Ok timestamp.
Proof.
  intros Hin.
  pose proof (OnlyCalls_since gateChecked _ w
                (validateNextQueuedShieldBatch_gate batchNetwork)) as Hall.
  rewrite Forall_forall in Hall.
  apply (Hall (ShouldAllowShield networkName txid fromAddress timestamp)).
  apply list_elem_of_In, Hin.
Qed.

(** X12.  The event is enqueued before the status is updated, inside the
    same [try].  So when the update throws after an allow verdict, the event
    is in the queue while the shield queue is as it was (the row is still
    pending); validating the row again enqueues the same event a second
    time. *)
Theorem validateShield_event_before_status_update
  networkName row endTimestamp w receipt timestamp verdict err :
  transactionReceipt networkName (ShieldQueueDBItem.txid row) = Ok receipt ->
  timestampFromTransactionReceipt networkName receipt = Ok timestamp ->
  timestamp <= endTimestamp ->
  policy networkName (ShieldQueueDBItem.txid row)
    (toLowerCase (TransactionReceipt.from receipt)) timestamp = Ok verdict ->
  shouldAllow verdict = true ->
  let event :=
    POIEventShield.mk Shield (ShieldQueueDBItem.blindedCommitment row)
      (ShieldQueueDBItem.commitmentHash row) in
  fault (QueueUnsignedPOIShieldEvent networkName event) = None ->
  fault (UpdateShieldStatus networkName row Allowed) = Some err ->
  let once := snd (validateShield networkName row endTimestamp w) in
  let twice := snd (validateShield networkName row endTimestamp once) in
  shieldQueue once = shieldQueue w /\
  poiEventQueue once = poiEventQueue w ++ [(networkName, event)] /\
  shieldQueue twice = shieldQueue w /\
  poiEventQueue twice
  = poiEventQueue w ++ [(networkName, event); (networkName, event)].
Proof.
  intros Hr Ht Hle Hp Hallow event Hq Hu.
  assert (Hrun : forall w0,
    shieldQueue (snd (validateShield networkName row endTimestamp w0))
    = shieldQueue w0 /\
    poiEventQueue (snd (validateShield networkName row endTimestamp w0))
    = poiEventQueue w0 ++ [(networkName, event)]).
  { intros w0. run_js. rewrite Hr. simpl. rewrite Ht. simpl.
    destruct (Z.ltb_spec endTimestamp timestamp) as [Hlt|_]; [lia|]. simpl.
    rewrite Hp. simpl. rewrite Hallow. fold event. rewrite Hq. simpl.
    rewrite Hu. simpl. split; reflexivity. }
  intros once twice. subst once twice.
  destruct (Hrun w) as [Hs1 Hq1].
  destruct (Hrun (snd (validateShield networkName row endTimestamp w)))
    as [Hs2 Hq2].
  rewrite Hs2, Hq2, Hs1, Hq1, <- app_assoc. repeat split.
Qed.


(** ** The size of a validation pass *)

Lemma validateShield_cost networkName row endTimestamp w :
  exists new,
    fst (validateShield networkName row endTimestamp w) = Ok tt /\
    RowCost row w (snd (validateShield networkName row endTimestamp w)) new.
Proof.
  unfold RowCost. run_cases;
    (eexists; split; [reflexivity|]; split; [trace_grows|]; simpl; split; lia).
Qed.

Lemma RowCost_steps rows w w' news :
  Steps RowCost rows w w' news ->
  trace w' = trace w ++ news /\
  length (List.filter isReceiptFetch news) = length rows /\
  (length (List.filter consultsPolicyGate news) <= length rows)%nat.
Proof.
  induction 1 as [w|x xs w w1 w2 new news (Ht & Hf & Hg) _ (IHt & IHf & IHg)].
  - rewrite app_nil_r. repeat split; simpl; lia.
  - rewrite !List.filter_app, !length_app, IHt, Ht, app_assoc. simpl.
    repeat split; lia.
Qed.

(** X17.  A validation pass on a network fetches at most 100 receipts,
    and consults the policy gate at most once per receipt fetched, whatever
    the size of the queue. *)
Theorem validation_pass_is_capped networkName w :
  let calls :=
    callsSince w (snd (validateNextQueuedShieldBatch networkName w)) in
  (length (List.filter isReceiptFetch calls) <= 100)%nat /\
  (length (List.filter consultsPolicyGate calls)
   <= length (List.filter isReceiptFetch calls))%nat.
Proof.
  intros calls. subst calls.
  unfold validateNextQueuedShieldBatch, getPendingShields. run_js.
  destruct (fault (GetPendingShields networkName getMaxTimestampForValidation 100))
    as [err|] eqn:Hf; simpl.
  - unfold callsSince. simpl. rewrite <- app_assoc, drop_app_length. simpl. lia.
  - pose proof (pendingShieldsOf_length getMaxTimestampForValidation 100
                  (rowsOf networkName w)) as Hlen.
    unfold rowsOf in *. simpl.
    set (batch := pendingShieldsOf getMaxTimestampForValidation 100
                    (default [] (shieldQueue w !! networkName))) in *.
    destruct (bool_decide (length batch = 0%nat)); simpl.
    + unfold callsSince. simpl. rewrite drop_app_length. simpl. lia.
    + match goal with
      | |- context [promiseAll (map ?f ?rows) ?w1] =>
          destruct (promiseAll_steps f RowCost
                      ltac:(intros x w0; apply validateShield_cost) rows w1)
            as (news & _ & Hst)
      end.
      apply RowCost_steps in Hst as (Ht & Hfetch & Hgate).
      unfold callsSince. rewrite Ht. simpl. rewrite <- !app_assoc, drop_app_length.
      simpl. lia.
Qed.

(** ** The route of a network *)

Lemma showZ_inj a b : showZ a = showZ b -> a = b.
Proof.
  unfold showZ. intros E. apply DecimalZ.to_int_inj.
  assert (Hnonnil : forall z, Z.to_int z <> Decimal.Pos Decimal.Nil /\ Z.to_int z <> Decimal.Neg Decimal.Nil).
  { intros [|p|p]; simpl; split; try discriminate;
      intros E'; injection E' as E'; exact (DecimalPos.Unsigned.to_uint_nonnil p E'). }
  destruct (Hnonnil a) as [Ha1 Ha2]. destruct (Hnonnil b) as [Hb1 Hb2].
  pose proof (NilZero.isi _ Ha1 Ha2) as Ia.
  pose proof (NilZero.isi _ Hb1 Hb2) as Ib.
  rewrite E in Ia. rewrite Ia in Ib. injection Ib as Ib. exact Ib.
Qed.

Lemma digits_slashFree d : slashFree (NilEmpty.string_of_uint d) = true.
Proof. induction d; simpl; auto. Qed.

Lemma showZ_slashFree z : slashFree (showZ z) = true.
Proof.
  unfold showZ, NilZero.string_of_int, NilZero.string_of_uint.
  destruct (Z.to_int z) as [[]|[]]; try reflexivity;
    apply (digits_slashFree (_ _)) || (simpl; apply digits_slashFree).
Qed.

(** Two paths [a/b] and [c/d] whose first segments have no slash are
    equal only segment by segment. *)
Lemma segments_inj a b c d :
  slashFree a = true -> slashFree c = true ->
  (a ++ "/" ++ b = c ++ "/" ++ d)%string -> a = c /\ b = d.
Proof.
  revert c. induction a as [|x a IH]; intros [|y c] Ha Hc E; simpl in *.
  - injection E as E. split; [reflexivity|exact E].
  - injection E as Ey E. subst y. discriminate Hc.
  - injection E as Ex E. subst x. discriminate Ha.
  - injection E as Ex E. subst y.
    apply andb_true_iff in Ha as [_ Ha]. apply andb_true_iff in Hc as [_ Hc].
    destruct (IH c Ha Hc E) as [-> ->]. split; reflexivity.
Qed.

(** X16.  The URL of a route names the chain: for one node and one
    route, two networks get the same URL only when their chains have the same
    type and the same id. *)
Theorem routeURL_names_the_chain nodeURL route networkName1 networkName2 :
  routeURL nodeURL route networkName1 = routeURL nodeURL route networkName2 ->
  chain (NETWORK_CONFIG networkName1) = chain (NETWORK_CONFIG networkName2).
Proof.
  unfold routeURL, getNodeRouteURL. intros E.
  destruct (chain (NETWORK_CONFIG networkName1)) as [type1 id1].
  destruct (chain (NETWORK_CONFIG networkName2)) as [type2 id2].
  simpl in E.
  do 4 apply String.app_inj in E.
  destruct (segments_inj _ _ _ _ (showZ_slashFree type1) (showZ_slashFree type2) E)
    as [Et Ei].
  apply showZ_inj in Et. apply showZ_inj in Ei. subst. reflexivity.
Qed.

End Extras.

(** ** The further properties on the small world *)

(** X2 on the scenario: the node refuses with a 403; the request was signed
    and posted once, to the route of Polygon, and the caller sees a plain
    error. *)
Lemma removeTransactProof_signs_then_posts_witness :
  List.filter (fun c => producesSignature c || isHttpRequest c)
    (callsSince Fixture.world
       (snd (removeTransactProof
               (environment := Scenario.listProviderEnvironment)
               (signer := Fixture.signer) (remoteNode := Scenario.refusingNode)
               "http://localhost:8080" Scenario.Polygon "V2_PoseidonMerkle" "00"
               ["0xb1"%string] "0x00" Fixture.world)))
  = [SignRemoveProof ["0xb1"%string] "0x00";
     AxiosPost "http://localhost:8080/remove-transact-proof/0/137"
       (RemoveTransactProofBody "V2_PoseidonMerkle" "00" ["0xb1"%string] "0x00"
          "5c")] /\
  fst (removeTransactProof
         (environment := Scenario.listProviderEnvironment)
         (signer := Fixture.signer) (remoteNode := Scenario.refusingNode)
         "http://localhost:8080" Scenario.Polygon "V2_PoseidonMerkle" "00"
         ["0xb1"%string] "0x00" Fixture.world)
  = Throw (Error "Request failed with status code 403: Forbidden").
Proof.
  exact (removeTransactProof_signs_then_posts
           (environment := Scenario.listProviderEnvironment)
           (signer := Fixture.signer) (remoteNode := Scenario.refusingNode)
           "http://localhost:8080" Scenario.Polygon "V2_PoseidonMerkle" "00"
           ["0xb1"%string] "0x00" Fixture.world eq_refl).
Defined.

(** X3 on the scenario: the signer has no usable key; nothing is posted. *)
Lemma submitValidatedTxidAndMerkleroot_signs_then_posts_witness :
  submitValidatedTxidAndMerkleroot
    (environment := Scenario.listProviderEnvironment)
    (signer := Scenario.brokenSigner) (remoteNode := Fixture.remoteNode)
    "http://localhost:8080" Fixture.Ethereum "V2_PoseidonMerkle" 3 "0x0f"
    Fixture.world
  = (Throw (Error "bad key"),
     setTrace
       (trace Fixture.world ++
        [GetListPublicKey; SignValidatedTxidMerkleroot 3 "0x0f"])
       Fixture.world).
Proof.
  exact (submitValidatedTxidAndMerkleroot_signs_then_posts
           (environment := Scenario.listProviderEnvironment)
           (signer := Scenario.brokenSigner) (remoteNode := Fixture.remoteNode)
           "http://localhost:8080" Fixture.Ethereum "V2_PoseidonMerkle" 3 "0x0f"
           Fixture.world eq_refl).
Defined.

(** X6 on the scenario: the wallet cannot be scanned on Ethereum, the first
    of two networks; three iterations were asked. *)
Lemma runQueueShieldsPoller_stops_at_failure_witness :
  runQueueShieldsPoller
    (environment := Scenario.listProviderEnvironment)
    (observer := Scenario.scanDown) (faults := Fixture.noFaults)
    (provider := Fixture.provider Fixture.bothOverrides) 3 Fixture.world
  = (Throw (Error "missing response"),
     snd (queueNewShields
            (environment := Scenario.listProviderEnvironment)
            (observer := Scenario.scanDown) (faults := Fixture.noFaults)
            Fixture.Ethereum Fixture.world)).
Proof.
  exact (runQueueShieldsPoller_stops_at_failure
           (environment := Scenario.listProviderEnvironment)
           (observer := Scenario.scanDown) (faults := Fixture.noFaults)
           (provider := Fixture.provider Fixture.bothOverrides)
           2 Fixture.world Fixture.Ethereum [Scenario.Polygon]
           (Error "missing response") eq_refl eq_refl).
Defined.

(** X7 on the scenario: nothing new on Ethereum. *)
Lemma queueNewShields_nothing_new_witness :
  queueNewShields
    (environment := Scenario.listProviderEnvironment)
    (observer := Scenario.nothingNew) (faults := Fixture.noFaults)
    Fixture.Ethereum Fixture.world
  = (Ok tt,
     setTrace
       [GetStatus Fixture.Ethereum;
        GetNewShieldsFromWallet Fixture.Ethereum 120;
        Dbg "[Ethereum] Attempting to insert 0 pending shields"]
       Fixture.world).
Proof.
  exact (queueNewShields_nothing_new
           (environment := Scenario.listProviderEnvironment)
           (observer := Scenario.nothingNew) (faults := Fixture.noFaults)
           Fixture.Ethereum Fixture.world eq_refl eq_refl).
Defined.

(** X8 on the scenario: the shield queue cannot be read. *)
Lemma validateNextQueuedShieldBatch_nothing_to_do_witness :
  validateNextQueuedShieldBatch
    (environment := Fixture.environment) (observer := Fixture.observer)
    (signer := Fixture.signer) (faults := Scenario.queryFault)
    (provider := Fixture.provider Fixture.bothOverrides)
    Fixture.Ethereum Fixture.world
  = (Ok tt,
     setTrace
       [GetPendingShields Fixture.Ethereum Fixture.cutoff 100;
        Dbg "Error getting queued shields on Ethereum: not primary"]
       Fixture.world).
Proof.
  apply (validateNextQueuedShieldBatch_nothing_to_do
           (environment := Fixture.environment) (observer := Fixture.observer)
           (signer := Fixture.signer) (faults := Scenario.queryFault)
           (provider := Fixture.provider Fixture.bothOverrides)
           Fixture.Ethereum Fixture.world).
  left. exists (Error "not primary"). reflexivity.
Defined.

(** X10 on the fixture: the receipt of [rowRpcDown] cannot be fetched. *)
Lemma validateShield_no_verdict_witness :
  sameStores Fixture.world
    (snd (validateShield
            (observer := Fixture.observer) (signer := Fixture.signer)
            (faults := Fixture.noFaults)
            (provider := Fixture.provider Fixture.bothOverrides)
            Fixture.Ethereum Fixture.rowRpcDown Fixture.cutoff Fixture.world)).
Proof.
  refine (proj1 (proj2
    (validateShield_no_verdict
       (observer := Fixture.observer) (signer := Fixture.signer)
       (faults := Fixture.noFaults)
       (provider := Fixture.provider Fixture.bothOverrides)
       Fixture.Ethereum Fixture.rowRpcDown Fixture.cutoff Fixture.world
       (Error "timeout") _))).
  left. reflexivity.
Defined.

(** X11 on the fixture: in the pass over Ethereum the gate is asked about
    [rowBlocked] with the timestamp 102 of its receipt, not the 50 stored with
    the row. *)
Lemma policy_gate_receives_checked_timestamp_witness :
  102 <= getMaxTimestampForValidation (environment := Fixture.environment) /\
  exists receipt,
    transactionReceipt (ChainObserver := Fixture.observer)
      Fixture.Ethereum "0xa2" = Ok receipt /\
    timestampFromTransactionReceipt (ChainObserver := Fixture.observer)
      Fixture.Ethereum receipt = Ok 102.
Proof.
  apply (policy_gate_receives_checked_timestamp
           (environment := Fixture.environment) (observer := Fixture.observer)
           (signer := Fixture.signer) (faults := Fixture.noFaults)
           (provider := Fixture.provider Fixture.bothOverrides)
           Fixture.Ethereum Fixture.world Fixture.Ethereum "0xa2"
           "0xde709f2102306220921060314715629080e2fb77" 102).
  vm_compute. do 4 right. left. reflexivity.
Defined.

(** X12 on the scenario: the shield queue cannot be written; two passes
    over [rowAllowed] leave two copies of its event. *)
Lemma validateShield_event_before_status_update_witness :
  poiEventQueue
    (snd (validateShield
            (observer := Fixture.observer) (signer := Fixture.signer)
            (faults := Scenario.updateFault)
            (provider := Fixture.provider Fixture.bothOverrides)
            Fixture.Ethereum Fixture.rowAllowed Fixture.cutoff
            (snd (validateShield
                    (observer := Fixture.observer) (signer := Fixture.signer)
                    (faults := Scenario.updateFault)
                    (provider := Fixture.provider Fixture.bothOverrides)
                    Fixture.Ethereum Fixture.rowAllowed Fixture.cutoff
                    Fixture.world))))
  = [(Fixture.Ethereum, POIEventShield.mk Shield "0xb1" "0x01");
     (Fixture.Ethereum, POIEventShield.mk Shield "0xb1" "0x01")].
Proof.
  refine (proj2 (proj2 (proj2
    (validateShield_event_before_status_update
       (observer := Fixture.observer) (signer := Fixture.signer)
       (faults := Scenario.updateFault)
       (provider := Fixture.provider Fixture.bothOverrides)
       Fixture.Ethereum Fixture.rowAllowed Fixture.cutoff Fixture.world
       Fixture.receiptAllowed 101 {| shouldAllow := true; blockReason := None |}
       (Error "not primary") eq_refl eq_refl _ _ eq_refl eq_refl eq_refl)))).
  - vm_compute. discriminate.
  - vm_compute. reflexivity.
Defined.


(** X16 on the scenario: every network but Polygon is on chain 0/1. *)
Lemma routeURL_names_the_chain_witness :
  chain (NETWORK_CONFIG (Environment := Scenario.listProviderEnvironment)
           Fixture.Ethereum)
  = chain (NETWORK_CONFIG (Environment := Scenario.listProviderEnvironment)
             "Hardhat").
Proof.
  apply (routeURL_names_the_chain
           (environment := Scenario.listProviderEnvironment)
           "http://localhost:8080" "poi-events" Fixture.Ethereum "Hardhat").
  reflexivity.
Defined.
